(** * enterprise.api.v1.views: the REST views of the enterprise API, version 1

    A shallow embedding of [src/enterprise/api/v1/views.py].

    - Python values the views test for truth are [Py.value]s, with Python's
      truthiness.
    - A view runs in the effect [action]: it emits a trace of [event]s (error
      log records and calls to the external catalog client, in program order)
      and either returns or raises.
    - Class statements are embedded as [pyclass] values: a class body is the
      list of its assignments, evaluated in order into a namespace, and
      attributes are resolved through the bases.
    - Collaborators that live outside this module (the catalog service, the
      serializers, the pagination helper, the framework's queryset filtering
      and permission checks) are parameters of the views. *)

From Stdlib Require Import String Ascii List Bool ZArith Lia.
Import ListNotations.
Open Scope string_scope.

Set Implicit Arguments.

(* ====================================================================== *)
(** ** Python values                                                       *)
(* ====================================================================== *)

Module Py.

(** The JSON-like payloads exchanged with the catalog service and handed
    to [Response]. *)
#[warnings="-register-all"]
Inductive value : Type :=
| None_
| Bool (b : bool)
| Int (z : Z)
| Str (s : string)
| List (items : list value)
| Dict (items : list (string * value)).

(** [bool(v)]: what [if not v] tests. *)
Definition truthy (v : value) : bool :=
  match v with
  | None_ => false
  | Bool b => b
  | Int z => negb (Z.eqb z 0)
  | Str s => negb (String.eqb s "")
  | List items => match items with [] => false | _ :: _ => true end
  | Dict items => match items with [] => false | _ :: _ => true end
  end.

(** [sub in s] on strings. *)
Fixpoint contains (sub s : string) : bool :=
  String.prefix sub s
  || match s with
     | EmptyString => false
     | String _ s' => contains sub s'
     end.

(** [x in t] for a tuple of strings. *)
Definition str_in (x : string) (t : list string) : bool :=
  existsb (String.eqb x) t.

(** [d.keys()] of a dict. *)
Definition keys (d : list (string * value)) : list string := map fst d.

(** [d[k]] as an option. *)
Fixpoint getitem (d : list (string * value)) (k : string) : option value :=
  match d with
  | [] => None
  | (k', v) :: d' => if String.eqb k k' then Some v else getitem d' k
  end.

End Py.

(* ====================================================================== *)
(** ** Requests, responses and the effect of a view                        *)
(* ====================================================================== *)

(** [django.contrib.auth.models.User], as far as the views look at it. *)
Record User : Type := mkUser {
  username : string;
  is_authenticated : bool;
  is_staff : bool
}.

(** [request.GET]: the query parameters, in order, duplicates kept. *)
Definition QueryDict : Type := list (string * string).

Record HttpRequest : Type := mkRequest {
  user : User;
  method : string;
  GET : QueryDict;
  get_full_path : string
}.

(** [rest_framework.response.Response(data)]. *)
Inductive Response : Type :=
| mkResponse (data : Py.value).

Definition response_data (r : Response) : Py.value :=
  match r with mkResponse d => d end.

(** The methods of [CourseCatalogApiClient] the views call. *)
Inductive api_call : Type :=
| get_paginated_catalogs (querystring : QueryDict)
| get_catalog (catalog_id : string)
| get_paginated_catalog_courses (catalog_id : Py.value) (querystring : QueryDict).

(** What a view does besides returning: [logger.error(msg)] and a call made
    through [CourseCatalogApiClient(user)]. *)
Inductive event : Type :=
| LogError (msg : string)
| CatalogApi (client_user : User) (call : api_call).

Inductive exn : Type :=
| NotFound (detail : string)
| Http404
| PermissionDenied.

Inductive outcome (A : Type) : Type :=
| Return (a : A)
| Raise (e : exn).

Arguments Return {A} a.
Arguments Raise {A} e.

(** A computation: the events it emitted, oldest first, and how it ended. *)
Definition action (A : Type) : Type := (list event * outcome A)%type.

Definition ret {A} (a : A) : action A := ([], Return a).

Definition raise {A} (e : exn) : action A := ([], Raise e).

Definition emit (ev : event) : action unit := ([ev], Return tt).

Definition bind {A B} (m : action A) (k : A -> action B) : action B :=
  match m with
  | (t1, Return a) => let (t2, r) := k a in ((t1 ++ t2)%list, r)
  | (t1, Raise e) => (t1, Raise e)
  end.

Declare Scope action_scope.
Delimit Scope action_scope with action.
Notation "x <- m ;; k" := (bind m (fun x => k))
  (at level 61, m at next level, right associativity) : action_scope.
Notation "m ;; k" := (bind m (fun _ => k))
  (at level 61, right associativity) : action_scope.
Open Scope action_scope.

Definition trace {A} (m : action A) : list event := fst m.
Definition result {A} (m : action A) : outcome A := snd m.

Definition is_log (ev : event) : bool :=
  match ev with LogError _ => true | CatalogApi _ _ => false end.

Definition is_api_call (ev : event) : bool :=
  match ev with LogError _ => false | CatalogApi _ _ => true end.

(** [logger.error(msg)]. *)
Definition logger_error (msg : string) : action unit := emit (LogError msg).

(** [CourseCatalogApiClient(user).<call>]: the call is recorded and the
    service's payload comes back. *)
Definition catalog_api (service : User -> api_call -> Py.value)
    (u : User) (c : api_call) : action Py.value :=
  emit (CatalogApi u c) ;; ret (service u c).

(* ====================================================================== *)
(** ** The data model the views read                                       *)
(* ====================================================================== *)

(** [models.EnterpriseCustomer]: the fields the viewset filters on.
    [catalog] is the id of the linked catalog, as the Python value the view
    tests for truth: [None] (or any other falsy value) when none is linked. *)
Record EnterpriseCustomer : Type := mkEnterpriseCustomer {
  uuid : string;
  name : string;
  catalog : Py.value;
  active : bool;
  site : string;
  enable_data_sharing_consent : bool;
  enforce_data_sharing_consent : string
}.

(** Modelled from the spec: [models.EnterpriseCustomerUser], defined in
    [enterprise/models.py] and not in this module: the link between a
    platform user id and a customer, together with the learner's
    entitlements list, each entitlement being the item it contributes to a
    payload. *)
Record EnterpriseCustomerUser : Type := mkEnterpriseCustomerUser {
  id : Z;
  enterprise_customer : EnterpriseCustomer;
  user_id : Z;
  learner_entitlements : list Py.value
}.

(** The classes of [enterprise.api.v1.serializers] the views name. *)
Inductive SerializerClass : Type :=
| EnterpriseCustomerSerializer
| EnterpriseCatalogCoursesReadOnlySerializer
| EnterpriseCourseEnrollmentReadOnlySerializer
| EnterpriseCourseEnrollmentWriteSerializer
| SiteSerializer
| UserSerializer
| EnterpriseCustomerUserReadOnlySerializer
| EnterpriseCustomerUserWriteSerializer
| EnterpriseCustomerUserEntitlementSerializer
| EnterpriseCustomerBrandingConfigurationSerializer
| UserDataSharingConsentAuditSerializer
| EnterpriseCustomerEntitlementSerializer
| EnterpriseCourseCatalogReadOnlySerializer
| CourseCatalogAPIResponseReadOnlySerializer.

(* ====================================================================== *)
(** ** What the views use of the framework's generic view                  *)
(* ====================================================================== *)

Module GenericAPIView.
Section Generic.

Variable T : Type.
Variable K : Type.
Variable K_eqb : K -> K -> bool.
Variable pk_of : T -> K.
(** The filter backends applied to the queryset for this request. *)
Variable filter_queryset : HttpRequest -> list T -> list T.
(** The conjunction of the object-level checks of the permission classes
    in force. *)
Variable has_object_permission : HttpRequest -> T -> bool.

(** [self.check_object_permissions(request, obj)]. *)
Definition check_object_permissions (request : HttpRequest) (obj : T)
  : action unit :=
  if has_object_permission request obj then ret tt else raise PermissionDenied.

(** [self.get_object()]: the row of the filtered queryset with the primary
    key of the URL, or a 404; the object-level permissions are checked
    before the object is handed out. *)
Definition get_object (queryset : list T) (request : HttpRequest) (pk : K)
  : action T :=
  match find (fun row => K_eqb (pk_of row) pk)
             (filter_queryset request queryset) with
  | None => raise Http404
  | Some obj => check_object_permissions request obj ;; ret obj
  end.

(** The rows a [list] operation serializes. *)
Definition list_objects (queryset : list T) (request : HttpRequest) : list T :=
  filter_queryset request queryset.

End Generic.
End GenericAPIView.

(** Modelled from the spec: the [active_customers] manager of
    [models.EnterpriseCustomer], defined in [enterprise/models.py] and not in
    this module; [active_customers.all()] is the customers whose [active]
    flag is set. *)
Definition active_customers_all (table : list EnterpriseCustomer)
  : list EnterpriseCustomer :=
  filter active table.

(* ====================================================================== *)
(** ** class EnterpriseCustomerViewSet                                     *)
(* ====================================================================== *)

Module EnterpriseCustomerViewSet.
Section View.

(** The catalog service behind [CourseCatalogApiClient]. *)
Variable service : User -> api_call -> Py.value.
(** [serializers.<cls>(instance).data]. *)
Variable serializer_data : SerializerClass -> Py.value -> Py.value.
(** The effect of [serializer.update_enterprise_courses(customer, catalog)]
    on [serializer.data]. *)
Variable update_enterprise_courses :
  EnterpriseCustomer -> Py.value -> Py.value -> Py.value.
(** [enterprise.api.pagination.get_paginated_response]. *)
Variable get_paginated_response : Py.value -> HttpRequest -> Response.
(** The rows of the customer table. *)
Variable table : list EnterpriseCustomer.
Variable filter_queryset :
  HttpRequest -> list EnterpriseCustomer -> list EnterpriseCustomer.
Variable has_object_permission : HttpRequest -> EnterpriseCustomer -> bool.

(** [queryset = models.EnterpriseCustomer.active_customers.all()] *)
Definition queryset : list EnterpriseCustomer := active_customers_all table.

Definition check_object_permissions :=
  GenericAPIView.check_object_permissions has_object_permission.

Definition get_object (request : HttpRequest) (pk : string)
  : action EnterpriseCustomer :=
  GenericAPIView.get_object String.eqb uuid filter_queryset
    has_object_permission queryset request pk.

Definition list_objects (request : HttpRequest) : list EnterpriseCustomer :=
  GenericAPIView.list_objects filter_queryset queryset request.

(** The call [courses] makes for customer [ec]: its catalog id and the
    request's query parameters. *)
Definition courses_call (request : HttpRequest) (ec : EnterpriseCustomer)
  : api_call :=
  get_paginated_catalog_courses (catalog ec) (GET request).

(** The message of the first failure: no catalog linked. *)
Definition no_catalog_message (enterprise_name path : string) : string :=
  "No catalog is associated with Enterprise " ++ enterprise_name
  ++ " from endpoint '" ++ path ++ "'.".

(** The message of the second failure: nothing came back. *)
Definition no_courses_message (enterprise_name path : string) : string :=
  "Unable to fetch API response for catalog courses for Enterprise "
  ++ enterprise_name ++ " from endpoint '" ++ path ++ "'.".

(** [def courses(self, request, pk=None)] *)
Definition courses (request : HttpRequest) (pk : string) : action Response :=
  enterprise_customer <- get_object request pk ;;
  check_object_permissions request enterprise_customer ;;
  if negb (Py.truthy (catalog enterprise_customer)) then
    let error_message :=
      no_catalog_message (name enterprise_customer) (get_full_path request) in
    logger_error error_message ;;
    raise (NotFound error_message)
  else
    courses <- catalog_api service (user request)
                 (get_paginated_catalog_courses
                    (catalog enterprise_customer) (GET request)) ;;
    if negb (Py.truthy courses) then
      let error_message :=
        no_courses_message (name enterprise_customer) (get_full_path request) in
      logger_error error_message ;;
      raise (NotFound error_message)
    else
      let serializer_data_0 :=
        serializer_data EnterpriseCatalogCoursesReadOnlySerializer courses in
      let serializer_data_1 :=
        update_enterprise_courses enterprise_customer
          (catalog enterprise_customer) serializer_data_0 in
      ret (get_paginated_response serializer_data_1 request).

End View.
End EnterpriseCustomerViewSet.

(* ====================================================================== *)
(** ** class EnterpriseCatalogViewSet                                      *)
(* ====================================================================== *)

Module EnterpriseCatalogViewSet.
Section View.

Variable service : User -> api_call -> Py.value.
Variable serializer_data : SerializerClass -> Py.value -> Py.value.
Variable update_enterprise_courses :
  EnterpriseCustomer -> Py.value -> Py.value -> Py.value.
Variable get_paginated_response : Py.value -> HttpRequest -> Response.
(** What [decorators.enterprise_customer_required] finds for the caller:
    the customer handed to the view, or the error raised instead. *)
Variable enterprise_customer_for : HttpRequest -> outcome EnterpriseCustomer.

(** [serializer_class = serializers.EnterpriseCourseCatalogReadOnlySerializer] *)
Definition serializer_class : SerializerClass :=
  EnterpriseCourseCatalogReadOnlySerializer.

Definition resource_missing : string :=
  "The resource you are looking for does not exist.".

(** The double-quote character of the [list] log message. *)
Definition dquote : string := String (Ascii.ascii_of_nat 34) EmptyString.

Definition list_log_message : string :=
  "Unable to fetch API response from endpoint " ++ dquote ++ "/catalogs/"
  ++ dquote ++ ".".

Definition retrieve_log_message (pk : string) : string :=
  "Unable to fetch API response for given catalog from endpoint '/catalog/"
  ++ pk ++ "/'.".

Definition courses_log_message (path : string) : string :=
  "Unable to fetch API response for catalog courses from endpoint '"
  ++ path ++ "'.".

(** [def retrieve(self, request, pk=None)] *)
Definition retrieve (request : HttpRequest) (pk : string) : action Response :=
  catalog <- catalog_api service (user request) (get_catalog pk) ;;
  if negb (Py.truthy catalog) then
    logger_error (retrieve_log_message pk) ;;
    raise (NotFound resource_missing)
  else
    ret (mkResponse (serializer_data serializer_class catalog)).

(** The body of [def courses(self, request, enterprise_customer, pk=None)]. *)
Definition courses_view (request : HttpRequest)
    (enterprise_customer : EnterpriseCustomer) (pk : string)
  : action Response :=
  courses <- catalog_api service (user request)
               (get_paginated_catalog_courses (Py.Str pk) (GET request)) ;;
  if negb (Py.truthy courses) then
    logger_error (courses_log_message (get_full_path request)) ;;
    raise (NotFound resource_missing)
  else
    let serializer_data_0 :=
      serializer_data EnterpriseCatalogCoursesReadOnlySerializer courses in
    let serializer_data_1 :=
      update_enterprise_courses enterprise_customer (Py.Str pk)
        serializer_data_0 in
    ret (get_paginated_response serializer_data_1 request).

(** [courses] as routed: under [enterprise_customer_required], which passes
    the caller's customer to the view or raises. *)
Definition courses (request : HttpRequest) (pk : string) : action Response :=
  enterprise_customer <- ([], enterprise_customer_for request) ;;
  courses_view request enterprise_customer pk.

(** [def list(self, request)] *)
Definition list (request : HttpRequest) : action Response :=
  catalogs <- catalog_api service (user request)
                (get_paginated_catalogs (GET request)) ;;
  if negb (Py.truthy catalogs) then
    logger_error list_log_message ;;
    raise (NotFound resource_missing)
  else
    ret (get_paginated_response
           (serializer_data CourseCatalogAPIResponseReadOnlySerializer catalogs)
           request).

End View.
End EnterpriseCatalogViewSet.

(* ====================================================================== *)
(** ** The four catalog-proxy views, as the router invokes them            *)
(* ====================================================================== *)

(** A routed invocation of one of the views that call the catalog service.
    [CatalogCourses] carries the customer [enterprise_customer_required]
    passes to the view. *)
Inductive view_call : Type :=
| CustomerCourses (pk : string)
| CatalogList
| CatalogRetrieve (pk : string)
| CatalogCourses (enterprise_customer : EnterpriseCustomer) (pk : string).

Module Router.
Section Dispatch.

Variable service : User -> api_call -> Py.value.
Variable serializer_data : SerializerClass -> Py.value -> Py.value.
Variable update_enterprise_courses :
  EnterpriseCustomer -> Py.value -> Py.value -> Py.value.
Variable get_paginated_response : Py.value -> HttpRequest -> Response.
Variable table : list EnterpriseCustomer.
Variable filter_queryset :
  HttpRequest -> list EnterpriseCustomer -> list EnterpriseCustomer.
Variable has_object_permission : HttpRequest -> EnterpriseCustomer -> bool.

Definition run (v : view_call) (request : HttpRequest) : action Response :=
  match v with
  | CustomerCourses pk =>
      EnterpriseCustomerViewSet.courses service serializer_data
        update_enterprise_courses get_paginated_response table
        filter_queryset has_object_permission request pk
  | CatalogList =>
      EnterpriseCatalogViewSet.list service serializer_data
        get_paginated_response request
  | CatalogRetrieve pk =>
      EnterpriseCatalogViewSet.retrieve service serializer_data request pk
  | CatalogCourses enterprise_customer pk =>
      EnterpriseCatalogViewSet.courses_view service serializer_data
        update_enterprise_courses get_paginated_response request
        enterprise_customer pk
  end.

End Dispatch.
End Router.

(* ====================================================================== *)
(** ** class EnterpriseCourseEnrollmentViewSet                             *)
(* ====================================================================== *)

Module EnterpriseCourseEnrollmentViewSet.

(** [def get_serializer_class(self)] *)
Definition get_serializer_class (request : HttpRequest) : SerializerClass :=
  if Py.str_in (method request) ["GET"] then
    EnterpriseCourseEnrollmentReadOnlySerializer
  else
    EnterpriseCourseEnrollmentWriteSerializer.

End EnterpriseCourseEnrollmentViewSet.

(* ====================================================================== *)
(** ** class EnterpriseCustomerUserViewSet                                 *)
(* ====================================================================== *)

(** Modelled from the spec: the [entitlements] property of
    [models.EnterpriseCustomerUser], defined in [enterprise/models.py] and
    not in this module: the learner's entitlements list, filtered according
    to the consent-enforcement setting of the learner's customer.
    [consent_allows setting learner e] is that setting's verdict on one
    entitlement of the list. *)
Definition entitlements_property
    (consent_allows : string -> EnterpriseCustomerUser -> Py.value -> bool)
    (learner : EnterpriseCustomerUser) : list Py.value :=
  filter
    (consent_allows
       (enforce_data_sharing_consent (enterprise_customer learner)) learner)
    (learner_entitlements learner).

(** Modelled from the spec: [EnterpriseCustomerUserEntitlementSerializer],
    defined in [enterprise/api/v1/serializers.py] and not in this module.
    Its output has the single key [entitlements], read from the instance. *)
Definition entitlement_serializer_data (instance : list (string * Py.value))
  : list (string * Py.value) :=
  match Py.getitem instance "entitlements" with
  | Some v => [("entitlements", v)]
  | None => []
  end.

Module EnterpriseCustomerUserViewSet.

(** [def get_serializer_class(self)] *)
Definition get_serializer_class (request : HttpRequest) : SerializerClass :=
  if Py.str_in (method request) ["GET"] then
    EnterpriseCustomerUserReadOnlySerializer
  else
    EnterpriseCustomerUserWriteSerializer.

Section View.

(** The rows of the learner table. *)
Variable table : list EnterpriseCustomerUser.
Variable filter_queryset :
  HttpRequest -> list EnterpriseCustomerUser -> list EnterpriseCustomerUser.
Variable has_object_permission : HttpRequest -> EnterpriseCustomerUser -> bool.
Variable consent_allows :
  string -> EnterpriseCustomerUser -> Py.value -> bool.

(** [queryset = models.EnterpriseCustomerUser.objects.all()] *)
Definition queryset : list EnterpriseCustomerUser := table.

Definition get_object (request : HttpRequest) (pk : Z)
  : action EnterpriseCustomerUser :=
  GenericAPIView.get_object Z.eqb id filter_queryset
    has_object_permission queryset request pk.

(** [def entitlements(self, request, pk=None)] *)
Definition entitlements (request : HttpRequest) (pk : Z) : action Response :=
  enterprise_customer_user <- get_object request pk ;;
  let instance :=
    [("entitlements",
      Py.List (entitlements_property consent_allows
                 enterprise_customer_user))] in
  ret (mkResponse (Py.Dict (entitlement_serializer_data instance))).

End View.
End EnterpriseCustomerUserViewSet.

(* ====================================================================== *)
(** ** Class statements and attribute resolution                           *)
(* ====================================================================== *)

Inductive PermissionClass : Type :=
| IsAuthenticated
| IsServiceUserOrReadOnly
| IsStaffUserOrLinkedToEnterprise
| OtherPermission (cls : string).

Inductive AuthenticationClass : Type :=
| JwtAuthentication
| BearerAuthentication
| SessionAuthentication
| OtherAuthentication (cls : string).

Inductive ThrottleClass : Type :=
| ServiceUserThrottle
| OtherThrottle (cls : string).

Inductive FilterBackend : Type :=
| OrderingFilter
| DjangoFilterBackend
| EnterpriseCustomerUserFilterBackend
| OtherBackend (cls : string).

(** The values class attributes of this module take. Tuples and lists of
    classes are both sequences. *)
Inductive attr : Type :=
| PermissionClasses (classes : list PermissionClass)
| AuthenticationClasses (classes : list AuthenticationClass)
| ThrottleClasses (classes : list ThrottleClass)
| FilterBackends (classes : list FilterBackend)
| FieldNames (fields : list string)
| Serializer (cls : SerializerClass)
| QuerySet (model manager : string).

(** The right-hand side of an assignment in a class body: a value written
    out, or a name bound earlier in the same body. *)
Inductive expr : Type :=
| Lit (v : attr)
| Name (x : string).

Definition namespace : Type := list (string * attr).

(** The binding of [x]; the most recent assignment is in front. *)
Fixpoint ns_lookup (ns : namespace) (x : string) : option attr :=
  match ns with
  | [] => None
  | (y, v) :: ns' => if String.eqb x y then Some v else ns_lookup ns' x
  end.

Definition eval (ns : namespace) (e : expr) : option attr :=
  match e with
  | Lit v => Some v
  | Name x => ns_lookup ns x
  end.

(** Runs the assignments of a class body in order; [None] is a NameError. *)
Fixpoint exec_body (ns : namespace) (body : list (string * expr))
  : option namespace :=
  match body with
  | [] => Some ns
  | (x, e) :: rest =>
      match eval ns e with
      | Some v => exec_body ((x, v) :: ns) rest
      | None => None
      end
  end.

(** [class cls_name(bases): body] *)
#[warnings="-register-all"]
Inductive pyclass : Type :=
| PyClass (cls_name : string) (bases : list pyclass)
          (body : list (string * expr)).

Definition class_name (c : pyclass) : string :=
  match c with PyClass n _ _ => n end.

Definition class_body (c : pyclass) : list (string * expr) :=
  match c with PyClass _ _ b => b end.

(** The namespace a class body leaves behind. *)
Definition body_namespace (body : list (string * expr)) : namespace :=
  match exec_body [] body with
  | Some ns => ns
  | None => []
  end.

(** The class's own [__dict__]. *)
Definition own_namespace (c : pyclass) : namespace :=
  body_namespace (class_body c).

(** [getattr(cls, x)]: the class's own binding, else the bases', left to
    right. The bases of this module's classes share no ancestor but
    [object], so this order finds what the method resolution order finds. *)
Fixpoint class_getattr (c : pyclass) (x : string) : option attr :=
  match c with
  | PyClass _ bases body =>
      match ns_lookup (body_namespace body) x with
      | Some v => Some v
      | None =>
          (fix in_bases (bs : list pyclass) : option attr :=
             match bs with
             | [] => None
             | b :: bs' =>
                 match class_getattr b x with
                 | Some v => Some v
                 | None => in_bases bs'
                 end
             end) bases
      end
  end.

(** An attribute as a routed action sees it: the keyword arguments of its
    [detail_route] decorator come before the class attributes. *)
Definition route_getattr (kwargs : namespace) (c : pyclass) (x : string)
  : option attr :=
  match ns_lookup kwargs x with
  | Some v => Some v
  | None => class_getattr c x
  end.

Definition object : pyclass := PyClass "object" [] [].

Module Classes.
Section Module_.

(** The framework's [viewsets.ReadOnlyModelViewSet], [viewsets.ModelViewSet]
    and [viewsets.ViewSet], whatever they define. *)
Variable ReadOnlyModelViewSet : pyclass.
Variable ModelViewSet : pyclass.
Variable ViewSet : pyclass.

Definition EnterpriseModelViewSet : pyclass :=
  PyClass "EnterpriseModelViewSet" [object]
    [ ("filter_backends",
       Lit (FilterBackends [OrderingFilter; DjangoFilterBackend]));
      ("permission_classes", Lit (PermissionClasses [IsAuthenticated]));
      ("authentication_classes",
       Lit (AuthenticationClasses
              [JwtAuthentication; BearerAuthentication; SessionAuthentication]));
      ("throttle_classes", Lit (ThrottleClasses [ServiceUserThrottle])) ].

Definition EnterpriseReadOnlyModelViewSet : pyclass :=
  PyClass "EnterpriseReadOnlyModelViewSet"
    [EnterpriseModelViewSet; ReadOnlyModelViewSet] [].

Definition EnterpriseReadWriteModelViewSet : pyclass :=
  PyClass "EnterpriseReadWriteModelViewSet"
    [EnterpriseModelViewSet; ModelViewSet]
    [ ("permission_classes",
       Lit (PermissionClasses [IsAuthenticated; IsServiceUserOrReadOnly])) ].

Definition EnterpriseCustomerViewSet : pyclass :=
  PyClass "EnterpriseCustomerViewSet" [EnterpriseReadOnlyModelViewSet]
    [ ("queryset", Lit (QuerySet "EnterpriseCustomer" "active_customers"));
      ("serializer_class", Lit (Serializer EnterpriseCustomerSerializer));
      ("FIELDS",
       Lit (FieldNames
              ["uuid"; "name"; "catalog"; "active"; "site";
               "enable_data_sharing_consent";
               "enforce_data_sharing_consent"]));
      ("filter_fields", Name "FIELDS");
      ("ordering_fields", Name "FIELDS") ].

(** The keyword arguments of the [detail_route] on
    [EnterpriseCustomerViewSet.courses]. *)
Definition courses_route_kwargs : namespace :=
  [ ("permission_classes",
     PermissionClasses
       [IsAuthenticated; IsServiceUserOrReadOnly;
        IsStaffUserOrLinkedToEnterprise]);
    ("authentication_classes",
     AuthenticationClasses
       [JwtAuthentication; BearerAuthentication; SessionAuthentication]);
    ("throttle_classes", ThrottleClasses [ServiceUserThrottle]) ].

Definition EnterpriseCourseEnrollmentViewSet : pyclass :=
  PyClass "EnterpriseCourseEnrollmentViewSet" [EnterpriseReadWriteModelViewSet]
    [ ("queryset", Lit (QuerySet "EnterpriseCourseEnrollment" "objects"));
      ("FIELDS",
       Lit (FieldNames
              ["enterprise_customer_user"; "consent_granted"; "course_id"]));
      ("filter_fields", Name "FIELDS");
      ("ordering_fields", Name "FIELDS") ].

Definition SiteViewSet : pyclass :=
  PyClass "SiteViewSet" [EnterpriseReadOnlyModelViewSet]
    [ ("queryset", Lit (QuerySet "Site" "objects"));
      ("serializer_class", Lit (Serializer SiteSerializer));
      ("FIELDS", Lit (FieldNames ["domain"; "name"]));
      ("filter_fields", Name "FIELDS");
      ("ordering_fields", Name "FIELDS") ].

Definition UserViewSet : pyclass :=
  PyClass "UserViewSet" [EnterpriseReadOnlyModelViewSet]
    [ ("queryset", Lit (QuerySet "User" "objects"));
      ("serializer_class", Lit (Serializer UserSerializer));
      ("FIELDS",
       Lit (FieldNames
              ["username"; "first_name"; "last_name"; "email"; "is_staff";
               "is_active"]));
      ("filter_fields", Name "FIELDS");
      ("ordering_fields", Name "FIELDS") ].

Definition EnterpriseCustomerUserViewSet : pyclass :=
  PyClass "EnterpriseCustomerUserViewSet" [EnterpriseReadWriteModelViewSet]
    [ ("queryset", Lit (QuerySet "EnterpriseCustomerUser" "objects"));
      ("filter_backends",
       Lit (FilterBackends
              [OrderingFilter; DjangoFilterBackend;
               EnterpriseCustomerUserFilterBackend]));
      ("FIELDS", Lit (FieldNames ["enterprise_customer"; "user_id"]));
      ("filter_fields", Name "FIELDS");
      ("ordering_fields", Name "FIELDS") ].

Definition EnterpriseCustomerBrandingConfigurationViewSet : pyclass :=
  PyClass "EnterpriseCustomerBrandingConfigurationViewSet"
    [EnterpriseReadOnlyModelViewSet]
    [ ("queryset",
       Lit (QuerySet "EnterpriseCustomerBrandingConfiguration" "objects"));
      ("serializer_class",
       Lit (Serializer EnterpriseCustomerBrandingConfigurationSerializer));
      ("FIELDS", Lit (FieldNames ["enterprise_customer"]));
      ("filter_fields", Name "FIELDS");
      ("ordering_fields", Name "FIELDS") ].

Definition UserDataSharingConsentAuditViewSet : pyclass :=
  PyClass "UserDataSharingConsentAuditViewSet" [EnterpriseReadOnlyModelViewSet]
    [ ("queryset", Lit (QuerySet "UserDataSharingConsentAudit" "objects"));
      ("serializer_class",
       Lit (Serializer UserDataSharingConsentAuditSerializer));
      ("FIELDS", Lit (FieldNames ["user"; "state"]));
      ("filter_fields", Name "FIELDS");
      ("ordering_fields", Name "FIELDS") ].

Definition EnterpriseCustomerEntitlementViewSet : pyclass :=
  PyClass "EnterpriseCustomerEntitlementViewSet"
    [EnterpriseReadOnlyModelViewSet]
    [ ("queryset", Lit (QuerySet "EnterpriseCustomerEntitlement" "objects"));
      ("serializer_class",
       Lit (Serializer EnterpriseCustomerEntitlementSerializer));
      ("FIELDS", Lit (FieldNames ["enterprise_customer"; "entitlement_id"]));
      ("filter_fields", Name "FIELDS");
      ("ordering_fields", Name "FIELDS") ].

Definition EnterpriseCatalogViewSet : pyclass :=
  PyClass "EnterpriseCatalogViewSet" [ViewSet]
    [ ("serializer_class",
       Lit (Serializer EnterpriseCourseCatalogReadOnlySerializer));
      ("permission_classes", Lit (PermissionClasses [IsAuthenticated]));
      ("authentication_classes",
       Lit (AuthenticationClasses
              [JwtAuthentication; BearerAuthentication; SessionAuthentication]));
      ("throttle_classes", Lit (ThrottleClasses [ServiceUserThrottle])) ].

(** The viewsets bound to a model: those with a [queryset]. *)
Definition model_viewsets : list pyclass :=
  [ EnterpriseCustomerViewSet; EnterpriseCourseEnrollmentViewSet; SiteViewSet;
    UserViewSet; EnterpriseCustomerUserViewSet;
    EnterpriseCustomerBrandingConfigurationViewSet;
    UserDataSharingConsentAuditViewSet; EnterpriseCustomerEntitlementViewSet ].

(** The viewsets that accept writes: the read/write base and its heirs. *)
Definition read_write_viewsets : list pyclass :=
  [ EnterpriseReadWriteModelViewSet; EnterpriseCourseEnrollmentViewSet;
    EnterpriseCustomerUserViewSet ].

(** The viewsets that only read: the read-only base and its heirs. *)
Definition read_only_viewsets : list pyclass :=
  [ EnterpriseReadOnlyModelViewSet; EnterpriseCustomerViewSet; SiteViewSet;
    UserViewSet; EnterpriseCustomerBrandingConfigurationViewSet;
    UserDataSharingConsentAuditViewSet; EnterpriseCustomerEntitlementViewSet ].

(** Every viewset class of the module. *)
Definition viewsets : list pyclass :=
  (read_only_viewsets ++ read_write_viewsets ++ [EnterpriseCatalogViewSet])%list.

End Module_.
End Classes.

(* ====================================================================== *)
(** ** Permission classes                                                  *)
(* ====================================================================== *)

(** [rest_framework.permissions.SAFE_METHODS]: the read-only methods. *)
Definition SAFE_METHODS : list string := ["GET"; "HEAD"; "OPTIONS"].

Module Permissions.
Section Checks.

(** Whether the caller is one of the configured service users. *)
Variable is_service_user : User -> bool.
(** Whether the caller owns the object the request addresses. *)
Variable is_owner : HttpRequest -> bool.
(** The verdict of [IsStaffUserOrLinkedToEnterprise]. *)
Variable is_staff_or_linked : HttpRequest -> bool.
(** The verdict of any other permission class, by name. *)
Variable other_permission : string -> HttpRequest -> bool.

(** Modelled from the spec: [IsServiceUserOrReadOnly], defined in
    [enterprise/api/permissions.py] and not in this module. A read-only
    request passes; any other request passes when the
    caller is a service user or the object's owner. *)
Definition is_service_user_or_read_only (request : HttpRequest) : bool :=
  Py.str_in (method request) SAFE_METHODS
  || is_service_user (user request)
  || is_owner request.

(** [permission().has_permission(request, view)] *)
Definition has_permission (p : PermissionClass) (request : HttpRequest) : bool :=
  match p with
  | IsAuthenticated => is_authenticated (user request)
  | IsServiceUserOrReadOnly => is_service_user_or_read_only request
  | IsStaffUserOrLinkedToEnterprise => is_staff_or_linked request
  | OtherPermission cls => other_permission cls request
  end.

(** [check_permissions]: every class in force must grant the request. *)
Definition check_permissions (classes : list PermissionClass)
    (request : HttpRequest) : bool :=
  forallb (fun p => has_permission p request) classes.

(** Whether the viewset class admits the request; [None] when the class
    resolves no [permission_classes]. *)
Definition permits (c : pyclass) (request : HttpRequest) : option bool :=
  match class_getattr c "permission_classes" with
  | Some (PermissionClasses classes) => Some (check_permissions classes request)
  | _ => None
  end.

End Checks.
End Permissions.

(* ====================================================================== *)
(** ** Sample data                                                         *)
(* ====================================================================== *)

Module Sample.

Definition staff : User :=
  {| username := "staff"; is_authenticated := true; is_staff := true |}.

Definition request_for (http_method path : string) (query : QueryDict)
  : HttpRequest :=
  {| user := staff; method := http_method; GET := query;
     get_full_path := path |}.

Definition customer (key label : string) (cat : Py.value) (is_active : bool)
  : EnterpriseCustomer :=
  {| uuid := key; name := label; catalog := cat; active := is_active;
     site := "example.com"; enable_data_sharing_consent := true;
     enforce_data_sharing_consent := "at_login" |}.

Definition acme : EnterpriseCustomer := customer "a1" "Acme" Py.None_ true.
Definition globex : EnterpriseCustomer := customer "g2" "Globex" (Py.Int 7) true.
Definition dormant : EnterpriseCustomer := customer "d3" "Dormant" (Py.Int 9) false.

Definition customers : list EnterpriseCustomer := [acme; dormant; globex].

Definition learner : EnterpriseCustomerUser :=
  {| id := 5%Z; enterprise_customer := globex; user_id := 42%Z;
     learner_entitlements :=
       [ Py.Dict [("entitlement_id", Py.Int 1);
                  ("requires_consent", Py.Bool false)];
         Py.Dict [("entitlement_id", Py.Int 2);
                  ("requires_consent", Py.Bool true)] ] |}.

(** A catalog service that is down: every call comes back empty. *)
Definition silent_service (_ : User) (_ : api_call) : Py.value := Py.None_.

(** A catalog service that answers every call with one page. *)
Definition one_page_service (_ : User) (_ : api_call) : Py.value :=
  Py.Dict [("count", Py.Int 0); ("results", Py.List [])].

Definition plain_data (_ : SerializerClass) (v : Py.value) : Py.value := v.

Definition tag_courses (c : EnterpriseCustomer) (cat : Py.value)
    (v : Py.value) : Py.value :=
  Py.Dict [("enterprise", Py.Str (name c)); ("catalog", cat); ("page", v)].

Definition paginate (v : Py.value) (_ : HttpRequest) : Response := mkResponse v.

Definition all_rows {T : Type} (_ : HttpRequest) (rows : list T) : list T := rows.

Definition allow {T : Type} (_ : HttpRequest) (_ : T) : bool := true.

Definition only_first_entitlement (_ : string) (_ : EnterpriseCustomerUser)
    (e : Py.value) : bool :=
  match e with
  | Py.Dict items =>
      match Py.getitem items "entitlement_id" with
      | Some (Py.Int z) => Z.eqb z 1
      | _ => false
      end
  | _ => false
  end.

Definition bare (n : string) : pyclass := PyClass n [object] [].

End Sample.

(* ====================================================================== *)
(** * Properties                                                           *)
(* ====================================================================== *)

Unset Implicit Arguments.

(** ** Strings *)

Lemma prefix_app (s t : string) : String.prefix s (s ++ t) = true.
Proof.
  induction s as [| a s IH]; simpl.
  - destruct t; reflexivity.
  - destruct (Ascii.ascii_dec a a) as [_ | Hne]; [exact IH | now elim Hne].
Qed.

Lemma contains_unfold (sub s : string) :
  Py.contains sub s =
  String.prefix sub s
  || match s with
     | EmptyString => false
     | String _ s' => Py.contains sub s'
     end.
Proof. destruct s; reflexivity. Qed.

Lemma contains_app (before sub after : string) :
  Py.contains sub (before ++ sub ++ after) = true.
Proof.
  induction before as [| a before IH].
  - simpl. rewrite contains_unfold, prefix_app. reflexivity.
  - rewrite contains_unfold. simpl. rewrite IH. apply orb_true_r.
Qed.

Lemma append_assoc (a b c : string) : (a ++ b) ++ c = a ++ b ++ c.
Proof. induction a as [| x a IH]; simpl; [| rewrite IH]; reflexivity. Qed.

Lemma str_in_singleton (x y : string) :
  Py.str_in x [y] = true <-> x = y.
Proof.
  unfold Py.str_in. simpl. rewrite orb_false_r. apply String.eqb_eq.
Qed.

(** ** The effect *)

Lemma bind_return {A B} (t : list event) (a : A) (k : A -> action B) :
  bind (t, Return a) k = ((t ++ trace (k a))%list, result (k a)).
Proof. unfold bind, trace, result. destruct (k a); reflexivity. Qed.

Lemma bind_raise {A B} (t : list event) (e : exn) (k : A -> action B) :
  bind (t, Raise e) k = (t, Raise e).
Proof. reflexivity. Qed.

Lemma action_eta {A} (m : action A) : m = (trace m, result m).
Proof. destruct m; reflexivity. Qed.

(** ** The generic view *)

Section GenericFacts.

Variables T K : Type.
Variable K_eqb : K -> K -> bool.
Variable pk_of : T -> K.
Variable filter_queryset : HttpRequest -> list T -> list T.
Variable has_object_permission : HttpRequest -> T -> bool.

Let get_object :=
  GenericAPIView.get_object K_eqb pk_of filter_queryset has_object_permission.

(** [get_object] emits nothing. *)
Lemma get_object_silent queryset request pk :
  trace (get_object queryset request pk) = [].
Proof.
  unfold get_object, GenericAPIView.get_object,
    GenericAPIView.check_object_permissions.
  destruct (find _ _) as [obj |]; [| reflexivity].
  destruct (has_object_permission request obj); reflexivity.
Qed.

(** A resolved object is a row of the filtered queryset with the requested
    key, and passed the object-level check. *)
Lemma get_object_resolved queryset request pk obj :
  result (get_object queryset request pk) = Return obj ->
  get_object queryset request pk = ([], Return obj)
  /\ In obj (filter_queryset request queryset)
  /\ K_eqb (pk_of obj) pk = true
  /\ has_object_permission request obj = true.
Proof.
  unfold get_object, GenericAPIView.get_object,
    GenericAPIView.check_object_permissions.
  destruct (find _ _) as [row |] eqn:Hfind; [| discriminate].
  destruct (has_object_permission request row) eqn:Hperm; [| discriminate].
  simpl. intros Heq. injection Heq as <-.
  apply find_some in Hfind. destruct Hfind as [Hin Hkey]. auto.
Qed.

(** [get_object] raises nothing but a 404 or a denial. *)
Lemma get_object_raises queryset request pk e :
  result (get_object queryset request pk) = Raise e ->
  get_object queryset request pk = ([], Raise e)
  /\ (e = Http404 \/ e = PermissionDenied).
Proof.
  unfold get_object, GenericAPIView.get_object,
    GenericAPIView.check_object_permissions.
  destruct (find _ _) as [row |].
  - destruct (has_object_permission request row); simpl; [discriminate |].
    intros Heq. injection Heq as <-. auto.
  - simpl. intros Heq. injection Heq as <-. auto.
Qed.

End GenericFacts.

(** ** The courses of an enterprise customer *)

Section CustomerCourses.

Variable service : User -> api_call -> Py.value.
Variable serializer_data : SerializerClass -> Py.value -> Py.value.
Variable update_enterprise_courses :
  EnterpriseCustomer -> Py.value -> Py.value -> Py.value.
Variable get_paginated_response : Py.value -> HttpRequest -> Response.
Variable table : list EnterpriseCustomer.
Variable filter_queryset :
  HttpRequest -> list EnterpriseCustomer -> list EnterpriseCustomer.
Variable has_object_permission : HttpRequest -> EnterpriseCustomer -> bool.

Let get_object :=
  EnterpriseCustomerViewSet.get_object table filter_queryset
    has_object_permission.
Let courses :=
  EnterpriseCustomerViewSet.courses service serializer_data
    update_enterprise_courses get_paginated_response table filter_queryset
    has_object_permission.

(** When no customer is resolved the action stops there, silently. *)
Lemma courses_unresolved request pk e :
  result (get_object request pk) = Raise e ->
  courses request pk = ([], Raise e).
Proof.
  intros Hres.
  apply get_object_raises in Hres. destruct Hres as [Hget _].
  unfold courses, EnterpriseCustomerViewSet.courses.
  unfold get_object, EnterpriseCustomerViewSet.get_object in Hget.
  unfold EnterpriseCustomerViewSet.get_object.
  rewrite Hget. reflexivity.
Qed.

(** The three ways the action ends once the customer is resolved. *)
Lemma courses_resolved request pk ec :
  result (get_object request pk) = Return ec ->
  courses request pk =
  if negb (Py.truthy (catalog ec)) then
    let msg :=
      EnterpriseCustomerViewSet.no_catalog_message
        (name ec) (get_full_path request) in
    ([LogError msg], Raise (NotFound msg))
  else
    let call := EnterpriseCustomerViewSet.courses_call request ec in
    let payload := service (user request) call in
    if negb (Py.truthy payload) then
      let msg :=
        EnterpriseCustomerViewSet.no_courses_message
          (name ec) (get_full_path request) in
      ([CatalogApi (user request) call; LogError msg], Raise (NotFound msg))
    else
      ([CatalogApi (user request) call],
       Return
         (get_paginated_response
            (update_enterprise_courses ec (catalog ec)
               (serializer_data EnterpriseCatalogCoursesReadOnlySerializer
                  payload))
            request)).
Proof.
  intros Hres.
  apply get_object_resolved in Hres.
  destruct Hres as (Hget & _ & _ & Hperm).
  unfold courses, EnterpriseCustomerViewSet.courses.
  unfold get_object, EnterpriseCustomerViewSet.get_object in Hget.
  unfold EnterpriseCustomerViewSet.get_object.
  rewrite Hget, bind_return.
  unfold EnterpriseCustomerViewSet.check_object_permissions,
    GenericAPIView.check_object_permissions.
  rewrite Hperm. unfold EnterpriseCustomerViewSet.courses_call.
  destruct (Py.truthy (catalog ec)); simpl; [| reflexivity].
  destruct (Py.truthy (service _ _)); reflexivity.
Qed.

(** C1. When the customer resolved for the request has no catalog (its
    [catalog] is falsy), the courses action raises NotFound, logs exactly one
    error record whose message contains the customer's name and the
    request's full path, and its trace holds no call to the catalog
    service. *)
Theorem courses_without_catalog request pk ec :
  result (get_object request pk) = Return ec ->
  Py.truthy (catalog ec) = false ->
  exists msg,
    courses request pk = ([LogError msg], Raise (NotFound msg))
    /\ Py.contains (name ec) msg = true
    /\ Py.contains (get_full_path request) msg = true
    /\ existsb is_api_call (trace (courses request pk)) = false.
Proof.
  intros Hres Hcat.
  pose proof (courses_resolved _ _ _ Hres) as Hrun.
  rewrite Hcat in Hrun. simpl in Hrun.
  eexists. split; [exact Hrun |]. rewrite Hrun.
  unfold EnterpriseCustomerViewSet.no_catalog_message.
  repeat split.
  - apply contains_app.
  - rewrite <- (append_assoc _ (name ec)).
    rewrite <- append_assoc. apply contains_app.
Qed.

(** C3. When the resolved customer has a catalog, the only call to the
    catalog service is [get_paginated_catalog_courses] with that catalog id
    and the request's query parameters as they came in; and a truthy payload
    is serialized, passed through [update_enterprise_courses] with the
    customer and its catalog, and returned through
    [get_paginated_response]. *)
Theorem courses_with_catalog request pk ec :
  result (get_object request pk) = Return ec ->
  Py.truthy (catalog ec) = true ->
  filter is_api_call (trace (courses request pk)) =
    [CatalogApi (user request)
       (get_paginated_catalog_courses (catalog ec) (GET request))]
  /\ (Py.truthy
        (service (user request)
           (get_paginated_catalog_courses (catalog ec) (GET request))) = true ->
      result (courses request pk) =
      Return
        (get_paginated_response
           (update_enterprise_courses ec (catalog ec)
              (serializer_data EnterpriseCatalogCoursesReadOnlySerializer
                 (service (user request)
                    (get_paginated_catalog_courses (catalog ec)
                       (GET request)))))
           request)).
Proof.
  intros Hres Hcat.
  pose proof (courses_resolved _ _ _ Hres) as Hrun.
  rewrite Hcat in Hrun. simpl in Hrun.
  unfold EnterpriseCustomerViewSet.courses_call in Hrun.
  split.
  - rewrite Hrun.
    destruct (Py.truthy (service _ _)); reflexivity.
  - intros Hpay. rewrite Hrun, Hpay. reflexivity.
Qed.

End CustomerCourses.

Lemma courses_without_catalog_witness :
  exists msg,
    EnterpriseCustomerViewSet.courses Sample.silent_service Sample.plain_data
      Sample.tag_courses Sample.paginate Sample.customers
      (@Sample.all_rows _) (@Sample.allow _)
      (Sample.request_for "GET" "/enterprise-customer/a1/courses/" []) "a1"
    = ([LogError msg], Raise (NotFound msg))
    /\ Py.contains "Acme" msg = true
    /\ Py.contains "/enterprise-customer/a1/courses/" msg = true.
Proof.
  destruct (courses_without_catalog Sample.silent_service Sample.plain_data
              Sample.tag_courses Sample.paginate Sample.customers
              (@Sample.all_rows _) (@Sample.allow _)
              (Sample.request_for "GET" "/enterprise-customer/a1/courses/" [])
              "a1" Sample.acme eq_refl eq_refl)
    as (msg & Hrun & Hname & Hpath & _).
  exists msg. auto.
Defined.

Lemma courses_with_catalog_witness :
  result
    (EnterpriseCustomerViewSet.courses Sample.one_page_service
       Sample.plain_data Sample.tag_courses Sample.paginate Sample.customers
       (@Sample.all_rows _) (@Sample.allow _)
       (Sample.request_for "GET" "/enterprise-customer/g2/courses/?page=2"
          [("page", "2")]) "g2")
  = Return
      (mkResponse
         (Py.Dict
            [("enterprise", Py.Str "Globex"); ("catalog", Py.Int 7);
             ("page", Py.Dict [("count", Py.Int 0); ("results", Py.List [])])])).
Proof.
  apply (courses_with_catalog Sample.one_page_service
           Sample.plain_data Sample.tag_courses Sample.paginate
           Sample.customers (@Sample.all_rows _) (@Sample.allow _)
           (Sample.request_for "GET" "/enterprise-customer/g2/courses/?page=2"
              [("page", "2")]) "g2" Sample.globex eq_refl eq_refl).
  reflexivity.
Defined.

(** ** The catalog proxies *)

Section CatalogProxies.

Variable service : User -> api_call -> Py.value.
Variable serializer_data : SerializerClass -> Py.value -> Py.value.
Variable update_enterprise_courses :
  EnterpriseCustomer -> Py.value -> Py.value -> Py.value.
Variable get_paginated_response : Py.value -> HttpRequest -> Response.
Variable table : list EnterpriseCustomer.
Variable filter_queryset :
  HttpRequest -> list EnterpriseCustomer -> list EnterpriseCustomer.
Variable has_object_permission : HttpRequest -> EnterpriseCustomer -> bool.

Let run :=
  Router.run service serializer_data update_enterprise_courses
    get_paginated_response table filter_queryset has_object_permission.
Let get_object :=
  EnterpriseCustomerViewSet.get_object table filter_queryset
    has_object_permission.

(** The routed view under the decorator is the view body on the customer
    the decorator found. *)
Lemma catalog_courses_routed enterprise_customer_for request ec pk :
  enterprise_customer_for request = Return ec ->
  EnterpriseCatalogViewSet.courses service serializer_data
    update_enterprise_courses get_paginated_response enterprise_customer_for
    request pk
  = run (CatalogCourses ec pk) request.
Proof.
  intros Hfound. unfold EnterpriseCatalogViewSet.courses.
  rewrite Hfound, bind_return. simpl. symmetry. apply action_eta.
Qed.

(** How each catalog view ends, by the payload it received. *)
Lemma catalog_list_run request :
  run CatalogList request =
  let call := get_paginated_catalogs (GET request) in
  if Py.truthy (service (user request) call) then
    ([CatalogApi (user request) call],
     Return
       (get_paginated_response
          (serializer_data CourseCatalogAPIResponseReadOnlySerializer
             (service (user request) call)) request))
  else
    ([CatalogApi (user request) call;
      LogError EnterpriseCatalogViewSet.list_log_message],
     Raise (NotFound EnterpriseCatalogViewSet.resource_missing)).
Proof.
  simpl. unfold EnterpriseCatalogViewSet.list, catalog_api. simpl.
  destruct (Py.truthy (service _ _)); reflexivity.
Qed.

Lemma catalog_retrieve_run request pk :
  run (CatalogRetrieve pk) request =
  let call := get_catalog pk in
  if Py.truthy (service (user request) call) then
    ([CatalogApi (user request) call],
     Return
       (mkResponse
          (serializer_data EnterpriseCatalogViewSet.serializer_class
             (service (user request) call))))
  else
    ([CatalogApi (user request) call;
      LogError (EnterpriseCatalogViewSet.retrieve_log_message pk)],
     Raise (NotFound EnterpriseCatalogViewSet.resource_missing)).
Proof.
  simpl. unfold EnterpriseCatalogViewSet.retrieve, catalog_api. simpl.
  destruct (Py.truthy (service _ _)); reflexivity.
Qed.

Lemma catalog_courses_run request ec pk :
  run (CatalogCourses ec pk) request =
  let call := get_paginated_catalog_courses (Py.Str pk) (GET request) in
  if Py.truthy (service (user request) call) then
    ([CatalogApi (user request) call],
     Return
       (get_paginated_response
          (update_enterprise_courses ec (Py.Str pk)
             (serializer_data EnterpriseCatalogCoursesReadOnlySerializer
                (service (user request) call))) request))
  else
    ([CatalogApi (user request) call;
      LogError
        (EnterpriseCatalogViewSet.courses_log_message (get_full_path request))],
     Raise (NotFound EnterpriseCatalogViewSet.resource_missing)).
Proof.
  simpl. unfold EnterpriseCatalogViewSet.courses_view, catalog_api. simpl.
  destruct (Py.truthy (service _ _)); reflexivity.
Qed.

(** C2. Whenever one of the four catalog-proxy views (customer courses,
    catalog list, catalog retrieve, catalog courses) has called the catalog
    service and the payload that came back is falsy, the view raises
    NotFound; it does not return a response. *)
Theorem empty_payload_is_not_found v request u call :
  In (CatalogApi u call) (trace (run v request)) ->
  Py.truthy (service u call) = false ->
  (exists detail, result (run v request) = Raise (NotFound detail))
  /\ (forall response, result (run v request) <> Return response).
Proof.
  intros Hcall Hempty.
  assert (Hraise : exists detail,
             result (run v request) = Raise (NotFound detail)).
  { destruct v as [pk | | pk | ec pk].
    - destruct (result (get_object request pk)) as [ec | e] eqn:Hres.
      + unfold run, Router.run in *.
        rewrite (courses_resolved service serializer_data
                   update_enterprise_courses get_paginated_response table
                   filter_queryset has_object_permission _ _ _ Hres) in *.
        destruct (Py.truthy (catalog ec)); simpl in *.
        * destruct (Py.truthy (service (user request) _)) eqn:Hpay;
            simpl in *; [| eauto].
          destruct Hcall as [Hcall | []].
          injection Hcall as <- <-. congruence.
        * destruct Hcall as [Hcall | []]. discriminate.
      + unfold run, Router.run in *.
        rewrite (courses_unresolved service serializer_data
                   update_enterprise_courses get_paginated_response table
                   filter_queryset has_object_permission _ _ _ Hres) in Hcall.
        destruct Hcall.
    - rewrite catalog_list_run in *. cbv zeta in *.
      destruct (Py.truthy (service (user request) _)) eqn:Hpay;
        simpl in *; [| eauto].
      destruct Hcall as [Hcall | []]. injection Hcall as <- <-. congruence.
    - rewrite catalog_retrieve_run in *. cbv zeta in *.
      destruct (Py.truthy (service (user request) _)) eqn:Hpay;
        simpl in *; [| eauto].
      destruct Hcall as [Hcall | []]. injection Hcall as <- <-. congruence.
    - rewrite catalog_courses_run in *. cbv zeta in *.
      destruct (Py.truthy (service (user request) _)) eqn:Hpay;
        simpl in *; [| eauto].
      destruct Hcall as [Hcall | []]. injection Hcall as <- <-. congruence. }
  split; [exact Hraise |].
  destruct Hraise as [detail Hraise]. intros response. rewrite Hraise.
  discriminate.
Qed.

(** C6, as the code has it. Every NotFound these views raise is preceded by
    exactly one error log record, the last event before the error
    propagates. For the customer courses action its message is the error's
    detail, one of the two texts of the action, and contains the customer's
    name and the request's full path. For the catalog courses action it is
    the fixed text around the request's full path and nothing else, whoever
    the customer is. For catalog retrieve it is the fixed text around the
    requested catalog id, without the request's path. For catalog list it
    is one fixed text. *)
Theorem not_found_is_logged v request detail :
  result (run v request) = Raise (NotFound detail) ->
  exists before msg,
    trace (run v request) = (before ++ [LogError msg])%list
    /\ existsb is_log before = false
    /\ match v with
       | CustomerCourses pk =>
           exists ec,
             result (get_object request pk) = Return ec
             /\ detail = msg
             /\ (msg = "No catalog is associated with Enterprise "
                       ++ name ec ++ " from endpoint '"
                       ++ get_full_path request ++ "'."
                 \/ msg = "Unable to fetch API response for catalog courses "
                          ++ "for Enterprise " ++ name ec
                          ++ " from endpoint '" ++ get_full_path request
                          ++ "'.")
             /\ Py.contains (name ec) msg = true
             /\ Py.contains (get_full_path request) msg = true
       | CatalogList =>
           msg = "Unable to fetch API response from endpoint "
                 ++ EnterpriseCatalogViewSet.dquote ++ "/catalogs/"
                 ++ EnterpriseCatalogViewSet.dquote ++ "."
       | CatalogRetrieve pk =>
           msg = "Unable to fetch API response for given catalog from "
                 ++ "endpoint '/catalog/" ++ pk ++ "/'."
           /\ Py.contains pk msg = true
       | CatalogCourses _ _ =>
           msg = "Unable to fetch API response for catalog courses from "
                 ++ "endpoint '" ++ get_full_path request ++ "'."
           /\ Py.contains (get_full_path request) msg = true
       end.
Proof.
  destruct v as [pk | | pk | ec pk].
  - destruct (result (get_object request pk)) as [ec | e] eqn:Hres.
    + unfold run, Router.run.
      rewrite (courses_resolved service serializer_data
                 update_enterprise_courses get_paginated_response table
                 filter_queryset has_object_permission _ _ _ Hres).
      destruct (Py.truthy (catalog ec)); simpl.
      * destruct (Py.truthy (service (user request) _)); simpl;
          [discriminate |].
        intros Heq. injection Heq as <-.
        eexists [_], _. split; [reflexivity |]. split; [reflexivity |].
        exists ec. split; [reflexivity |]. split; [reflexivity |].
        split; [right; reflexivity |].
        unfold EnterpriseCustomerViewSet.no_courses_message. split.
        -- apply contains_app.
        -- rewrite <- (append_assoc _ (name ec)).
           rewrite <- append_assoc. apply contains_app.
      * intros Heq. injection Heq as <-.
        exists [], (EnterpriseCustomerViewSet.no_catalog_message
                      (name ec) (get_full_path request)).
        split; [reflexivity |]. split; [reflexivity |].
        exists ec. split; [reflexivity |]. split; [reflexivity |].
        split; [left; reflexivity |].
        unfold EnterpriseCustomerViewSet.no_catalog_message. split.
        -- apply contains_app.
        -- rewrite <- (append_assoc _ (name ec)).
           rewrite <- append_assoc. apply contains_app.
    + unfold run, Router.run.
      rewrite (courses_unresolved service serializer_data
                 update_enterprise_courses get_paginated_response table
                 filter_queryset has_object_permission _ _ _ Hres).
      simpl. intros Heq. injection Heq as ->.
      apply get_object_raises in Hres.
      destruct Hres as [_ [Habs | Habs]]; discriminate.
  - rewrite catalog_list_run. cbv zeta.
    destruct (Py.truthy (service (user request) _)); simpl; [discriminate |].
    intros _. eexists [_], _. repeat split.
  - rewrite catalog_retrieve_run. cbv zeta.
    destruct (Py.truthy (service (user request) _)); simpl; [discriminate |].
    intros _. eexists [_], _. split; [reflexivity |]. split; [reflexivity |].
    split; [reflexivity |].
    apply (contains_app
             "Unable to fetch API response for given catalog from endpoint '/catalog/").
  - rewrite catalog_courses_run. cbv zeta.
    destruct (Py.truthy (service (user request) _)); simpl; [discriminate |].
    intros _. eexists [_], _. split; [reflexivity |]. split; [reflexivity |].
    split; [reflexivity |].
    apply (contains_app
             "Unable to fetch API response for catalog courses from endpoint '").
Qed.

End CatalogProxies.

Lemma empty_payload_is_not_found_witness :
  exists detail,
    result
      (EnterpriseCatalogViewSet.retrieve Sample.silent_service
         Sample.plain_data (Sample.request_for "GET" "/catalogs/3/" []) "3")
    = Raise (NotFound detail).
Proof.
  apply (empty_payload_is_not_found Sample.silent_service Sample.plain_data
           Sample.tag_courses Sample.paginate Sample.customers
           (@Sample.all_rows _) (@Sample.allow _)
           (CatalogRetrieve "3") (Sample.request_for "GET" "/catalogs/3/" [])
           Sample.staff (get_catalog "3")).
  - simpl. left. reflexivity.
  - reflexivity.
Defined.

Lemma not_found_is_logged_witness :
  exists before msg,
    trace
      (EnterpriseCustomerViewSet.courses Sample.silent_service
         Sample.plain_data Sample.tag_courses Sample.paginate Sample.customers
         (@Sample.all_rows _) (@Sample.allow _)
         (Sample.request_for "GET" "/enterprise-customer/g2/courses/" []) "g2")
    = (before ++ [LogError msg])%list
    /\ Py.contains "Globex" msg = true
    /\ Py.contains "/enterprise-customer/g2/courses/" msg = true.
Proof.
  destruct (not_found_is_logged Sample.silent_service Sample.plain_data
              Sample.tag_courses Sample.paginate Sample.customers
              (@Sample.all_rows _) (@Sample.allow _)
              (CustomerCourses "g2")
              (Sample.request_for "GET" "/enterprise-customer/g2/courses/" [])
              _ eq_refl)
    as (before & msg & Htrace & _ & ec & Hres & _ & _ & Hname & Hpath).
  exists before, msg. split; [exact Htrace |].
  injection Hres as <-. auto.
Defined.

(** C6 as stated fails. The log record of a failed catalog list mentions
    neither the requested path nor any entity; that of a failed catalog
    retrieve does not contain the requested path; and that of a failed
    catalog courses action does not contain the customer's name. *)
Lemma catalog_logs_omit_path_or_name :
  (let request :=
     Sample.request_for "GET" "/enterprise/api/v1/catalogs/?page=2"
       [("page", "2")] in
   let run :=
     EnterpriseCatalogViewSet.list Sample.silent_service Sample.plain_data
       Sample.paginate request in
   result run = Raise (NotFound EnterpriseCatalogViewSet.resource_missing)
   /\ forall msg, In (LogError msg) (trace run) ->
                  Py.contains (get_full_path request) msg = false)
  /\ (let request :=
        Sample.request_for "GET" "/enterprise/api/v1/catalogs/3/" [] in
      let run :=
        EnterpriseCatalogViewSet.retrieve Sample.silent_service
          Sample.plain_data request "3" in
      result run = Raise (NotFound EnterpriseCatalogViewSet.resource_missing)
      /\ forall msg, In (LogError msg) (trace run) ->
                     Py.contains (get_full_path request) msg = false)
  /\ (let request :=
        Sample.request_for "GET" "/enterprise/api/v1/catalogs/7/courses/" [] in
      let run :=
        EnterpriseCatalogViewSet.courses_view Sample.silent_service
          Sample.plain_data Sample.tag_courses Sample.paginate request
          Sample.globex "7" in
      result run = Raise (NotFound EnterpriseCatalogViewSet.resource_missing)
      /\ forall msg, In (LogError msg) (trace run) ->
                     Py.contains (name Sample.globex) msg = false).
Proof.
  repeat split; intros msg Hin; simpl in Hin;
    destruct Hin as [Hin | [Hin | []]]; try discriminate;
    injection Hin as <-; vm_compute; reflexivity.
Qed.

(** ** Serializer selection *)

(** C4. For the course-enrollment and the customer-user viewsets,
    [get_serializer_class] returns the read-only serializer exactly when the
    request's method is GET, and the write serializer for every other
    method. *)
Theorem get_serializer_class_by_method request :
  (EnterpriseCourseEnrollmentViewSet.get_serializer_class request
     = EnterpriseCourseEnrollmentReadOnlySerializer
   <-> method request = "GET")
  /\ (method request <> "GET" ->
      EnterpriseCourseEnrollmentViewSet.get_serializer_class request
        = EnterpriseCourseEnrollmentWriteSerializer)
  /\ (EnterpriseCustomerUserViewSet.get_serializer_class request
        = EnterpriseCustomerUserReadOnlySerializer
      <-> method request = "GET")
  /\ (method request <> "GET" ->
      EnterpriseCustomerUserViewSet.get_serializer_class request
        = EnterpriseCustomerUserWriteSerializer).
Proof.
  unfold EnterpriseCourseEnrollmentViewSet.get_serializer_class,
    EnterpriseCustomerUserViewSet.get_serializer_class.
  destruct (Py.str_in (method request) ["GET"]) eqn:Hin.
  - apply str_in_singleton in Hin.
    repeat split; auto; intros Hne; now elim Hne.
  - assert (Hne : method request <> "GET").
    { intros Heq. apply str_in_singleton in Heq. congruence. }
    repeat split; auto; intros Habs;
      solve [discriminate Habs | now elim Hne].
Qed.

Lemma get_serializer_class_by_method_witness :
  Forall
    (fun m =>
       EnterpriseCourseEnrollmentViewSet.get_serializer_class
         (Sample.request_for m "/enterprise-course-enrollment/" [])
       = EnterpriseCourseEnrollmentWriteSerializer
       /\ EnterpriseCustomerUserViewSet.get_serializer_class
            (Sample.request_for m "/enterprise-learner/" [])
          = EnterpriseCustomerUserWriteSerializer)
    ["POST"; "PUT"; "PATCH"; "DELETE"; "HEAD"; "OPTIONS"].
Proof.
  repeat apply Forall_cons; try apply Forall_nil; split;
    match goal with
    | |- EnterpriseCourseEnrollmentViewSet.get_serializer_class ?r = _ =>
        apply (get_serializer_class_by_method r); discriminate
    | |- EnterpriseCustomerUserViewSet.get_serializer_class ?r = _ =>
        apply (get_serializer_class_by_method r); discriminate
    end.
Defined.

(** ** The entitlements of a learner *)

Section Entitlements.

Variable table : list EnterpriseCustomerUser.
Variable filter_queryset :
  HttpRequest -> list EnterpriseCustomerUser -> list EnterpriseCustomerUser.
Variable has_object_permission : HttpRequest -> EnterpriseCustomerUser -> bool.
Variable consent_allows :
  string -> EnterpriseCustomerUser -> Py.value -> bool.

Let get_object :=
  EnterpriseCustomerUserViewSet.get_object table filter_queryset
    has_object_permission.
Let entitlements :=
  EnterpriseCustomerUserViewSet.entitlements table filter_queryset
    has_object_permission consent_allows.

(** C5. Once the learner is resolved, the entitlements action returns an
    object whose only key is [entitlements]; its value is the learner's
    entitlements list filtered by the consent-enforcement setting of the
    learner's customer: the entitlements the setting allows, each once, in
    the order of the list. *)
Theorem entitlements_payload request pk learner :
  result (get_object request pk) = Return learner ->
  exists payload,
    entitlements request pk = ([], Return (mkResponse (Py.Dict payload)))
    /\ Py.keys payload = ["entitlements"]
    /\ payload
       = [("entitlements",
           Py.List
             (filter
                (consent_allows
                   (enforce_data_sharing_consent (enterprise_customer learner))
                   learner)
                (learner_entitlements learner)))].
Proof.
  intros Hres.
  apply get_object_resolved in Hres. destruct Hres as (Hget & _).
  unfold entitlements, EnterpriseCustomerUserViewSet.entitlements.
  unfold get_object, EnterpriseCustomerUserViewSet.get_object in Hget.
  unfold EnterpriseCustomerUserViewSet.get_object.
  rewrite Hget, bind_return. simpl.
  eexists. split; [reflexivity |]. split; reflexivity.
Qed.

End Entitlements.

Lemma entitlements_payload_witness :
  EnterpriseCustomerUserViewSet.entitlements [Sample.learner]
    (@Sample.all_rows _) (@Sample.allow _) Sample.only_first_entitlement
    (Sample.request_for "GET" "/enterprise-learner/5/entitlements/" []) 5%Z
  = ([],
     Return
       (mkResponse
          (Py.Dict
             [("entitlements",
               Py.List
                 [Py.Dict [("entitlement_id", Py.Int 1);
                           ("requires_consent", Py.Bool false)]])]))).
Proof.
  destruct (entitlements_payload [Sample.learner] (@Sample.all_rows _)
              (@Sample.allow _) Sample.only_first_entitlement
              (Sample.request_for "GET" "/enterprise-learner/5/entitlements/" [])
              5%Z Sample.learner eq_refl)
    as (payload & Hrun & _ & Hpayload).
  rewrite Hrun, Hpayload. reflexivity.
Defined.

(** ** The policy attributes of the viewset classes *)

Section Policy.

Variable ReadOnlyModelViewSet : pyclass.
Variable ModelViewSet : pyclass.
Variable ViewSet : pyclass.
Variable is_service_user : User -> bool.
Variable is_owner : HttpRequest -> bool.
Variable is_staff_or_linked : HttpRequest -> bool.
Variable other_permission : string -> HttpRequest -> bool.

Let viewsets := Classes.viewsets ReadOnlyModelViewSet ModelViewSet ViewSet.
Let model_viewsets := Classes.model_viewsets ReadOnlyModelViewSet ModelViewSet.
Let read_write_viewsets := Classes.read_write_viewsets ModelViewSet.
Let read_only_viewsets := Classes.read_only_viewsets ReadOnlyModelViewSet.
Let permits :=
  Permissions.permits is_service_user is_owner is_staff_or_linked
    other_permission.

Ltac each_class H :=
  repeat (destruct H as [<- | H]); [.. | destruct H].

(** Every class body of the module runs without a NameError. *)
Lemma class_bodies_run V :
  In V viewsets -> exec_body [] (class_body V) <> None.
Proof.
  intros Hin. unfold viewsets, Classes.viewsets, Classes.read_only_viewsets,
    Classes.read_write_viewsets in Hin. simpl in Hin.
  each_class Hin; discriminate.
Qed.

(** A request a class admits under [IsAuthenticated] comes from an
    authenticated caller. *)
Lemma is_authenticated_enforced classes request :
  In IsAuthenticated classes ->
  Permissions.check_permissions is_service_user is_owner is_staff_or_linked
    other_permission classes request = true ->
  is_authenticated (user request) = true.
Proof.
  intros Hin Hall. unfold Permissions.check_permissions in Hall.
  rewrite forallb_forall in Hall. exact (Hall _ Hin).
Qed.

(** C7. Every viewset class of the module resolves the shared policy: its
    permission classes include [IsAuthenticated], so a request it admits
    comes from an authenticated caller; its authentication classes are
    exactly JWT, Bearer and Session; its throttle classes are exactly the
    service-user throttle. *)
Theorem shared_policy_bundle V :
  In V viewsets ->
  (exists classes,
     class_getattr V "permission_classes" = Some (PermissionClasses classes)
     /\ In IsAuthenticated classes)
  /\ class_getattr V "authentication_classes"
     = Some (AuthenticationClasses
               [JwtAuthentication; BearerAuthentication; SessionAuthentication])
  /\ class_getattr V "throttle_classes"
     = Some (ThrottleClasses [ServiceUserThrottle])
  /\ (forall request,
        permits V request = Some true ->
        is_authenticated (user request) = true).
Proof.
  intros Hin.
  assert (Hperm : exists classes,
             class_getattr V "permission_classes"
             = Some (PermissionClasses classes)
             /\ In IsAuthenticated classes).
  { unfold viewsets, Classes.viewsets, Classes.read_only_viewsets,
      Classes.read_write_viewsets in Hin. simpl in Hin.
    each_class Hin; eexists; (split; [reflexivity | simpl; auto]). }
  split; [exact Hperm |].
  split; [| split].
  - unfold viewsets, Classes.viewsets, Classes.read_only_viewsets,
      Classes.read_write_viewsets in Hin. simpl in Hin.
    each_class Hin; reflexivity.
  - unfold viewsets, Classes.viewsets, Classes.read_only_viewsets,
      Classes.read_write_viewsets in Hin. simpl in Hin.
    each_class Hin; reflexivity.
  - destruct Hperm as (classes & Hattr & Hauth).
    intros request. unfold permits, Permissions.permits. rewrite Hattr.
    intros Heq. injection Heq as Heq.
    exact (is_authenticated_enforced _ _ Hauth Heq).
Qed.

(** The [courses] action of the customer viewset, routed with its own
    keyword arguments, keeps the same policy and adds two permission
    classes. *)
Lemma courses_route_policy :
  let V := Classes.EnterpriseCustomerViewSet ReadOnlyModelViewSet in
  route_getattr Classes.courses_route_kwargs V "permission_classes"
  = Some (PermissionClasses
            [IsAuthenticated; IsServiceUserOrReadOnly;
             IsStaffUserOrLinkedToEnterprise])
  /\ route_getattr Classes.courses_route_kwargs V "authentication_classes"
     = class_getattr V "authentication_classes"
  /\ route_getattr Classes.courses_route_kwargs V "throttle_classes"
     = class_getattr V "throttle_classes".
Proof. repeat split. Qed.

(** C8. Every read/write viewset resolves the permission classes
    [IsAuthenticated] and [IsServiceUserOrReadOnly]. A request whose method
    is not read-only is admitted exactly when the caller is authenticated
    and is a service user or the object's owner; a read-only request is
    admitted as soon as the caller is authenticated. *)
Theorem write_requests_gated V request :
  In V read_write_viewsets ->
  class_getattr V "permission_classes"
  = Some (PermissionClasses [IsAuthenticated; IsServiceUserOrReadOnly])
  /\ (Py.str_in (method request) SAFE_METHODS = false ->
      (permits V request = Some true <->
       is_authenticated (user request) = true
       /\ (is_service_user (user request) = true \/ is_owner request = true)))
  /\ (Py.str_in (method request) SAFE_METHODS = true ->
      permits V request = Some (is_authenticated (user request))).
Proof.
  intros Hin.
  assert (Hattr : class_getattr V "permission_classes"
                  = Some (PermissionClasses
                            [IsAuthenticated; IsServiceUserOrReadOnly])).
  { unfold read_write_viewsets, Classes.read_write_viewsets in Hin.
    simpl in Hin. each_class Hin; reflexivity. }
  split; [exact Hattr |].
  unfold permits, Permissions.permits. rewrite Hattr.
  unfold Permissions.check_permissions.
  cbn [forallb Permissions.has_permission].
  unfold Permissions.is_service_user_or_read_only.
  split; intros Hsafe; rewrite Hsafe; cbn [orb].
  - rewrite andb_true_r. split.
    + intros Heq. injection Heq as Heq.
      apply andb_true_iff in Heq. destruct Heq as [Hauth Hgate].
      apply orb_true_iff in Hgate. auto.
    + intros [Hauth Hgate]. apply orb_true_iff in Hgate.
      rewrite Hauth, Hgate. reflexivity.
  - rewrite andb_true_r. reflexivity.
Qed.

(** The read-only viewsets carry no such gate. *)
Lemma read_only_viewsets_ungated V :
  In V read_only_viewsets ->
  class_getattr V "permission_classes" = Some (PermissionClasses [IsAuthenticated]).
Proof.
  intros Hin. unfold read_only_viewsets, Classes.read_only_viewsets in Hin.
  simpl in Hin. each_class Hin; reflexivity.
Qed.

(** C10. In every model viewset [filter_fields] and [ordering_fields] are
    the one tuple bound to [FIELDS] in the class body, so a field can be
    filtered on exactly when it can be ordered on. *)
Theorem filter_and_ordering_fields_agree V :
  In V model_viewsets ->
  exists fields,
    ns_lookup (own_namespace V) "FIELDS" = Some (FieldNames fields)
    /\ class_getattr V "filter_fields" = Some (FieldNames fields)
    /\ class_getattr V "ordering_fields" = Some (FieldNames fields).
Proof.
  intros Hin. unfold model_viewsets, Classes.model_viewsets in Hin.
  simpl in Hin. each_class Hin; eexists; repeat split.
Qed.

End Policy.

Lemma shared_policy_bundle_witness :
  class_getattr
    (Classes.EnterpriseCatalogViewSet (Sample.bare "ViewSet"))
    "throttle_classes"
  = Some (ThrottleClasses [ServiceUserThrottle]).
Proof.
  apply (shared_policy_bundle (Sample.bare "ReadOnlyModelViewSet")
           (Sample.bare "ModelViewSet") (Sample.bare "ViewSet")
           (fun _ => false) (fun _ => false) (fun _ => false)
           (fun _ _ => false)).
  unfold Classes.viewsets. simpl. auto 20.
Defined.

Lemma write_requests_gated_witness :
  let worker :=
    {| username := "service_worker"; is_authenticated := true;
       is_staff := false |} in
  let request :=
    {| user := worker; method := "POST"; GET := [];
       get_full_path := "/enterprise-course-enrollment/" |} in
  Permissions.permits (fun u => String.eqb (username u) "service_worker")
    (fun _ => false) (fun _ => false) (fun _ _ => false)
    (Classes.EnterpriseCourseEnrollmentViewSet (Sample.bare "ModelViewSet"))
    request
  = Some true.
Proof.
  intros worker request.
  destruct (write_requests_gated (Sample.bare "ModelViewSet")
              (fun u => String.eqb (username u) "service_worker")
              (fun _ => false) (fun _ => false) (fun _ _ => false)
              (Classes.EnterpriseCourseEnrollmentViewSet
                 (Sample.bare "ModelViewSet"))
              request (or_intror (or_introl eq_refl)))
    as (_ & Hwrite & _).
  apply (Hwrite eq_refl).
  split; [reflexivity | left; reflexivity].
Defined.

Lemma filter_and_ordering_fields_agree_witness :
  exists fields,
    class_getattr
      (Classes.SiteViewSet (Sample.bare "ReadOnlyModelViewSet"))
      "filter_fields" = Some (FieldNames fields)
    /\ class_getattr
         (Classes.SiteViewSet (Sample.bare "ReadOnlyModelViewSet"))
         "ordering_fields" = Some (FieldNames fields).
Proof.
  destruct (filter_and_ordering_fields_agree
              (Sample.bare "ReadOnlyModelViewSet") (Sample.bare "ModelViewSet")
              (Classes.SiteViewSet (Sample.bare "ReadOnlyModelViewSet")))
    as (fields & _ & Hfilter & Hordering).
  - simpl. auto.
  - exists fields. auto.
Defined.

(** ** Only active customers are reachable *)

Section ActiveCustomers.

Variable service : User -> api_call -> Py.value.
Variable serializer_data : SerializerClass -> Py.value -> Py.value.
Variable update_enterprise_courses :
  EnterpriseCustomer -> Py.value -> Py.value -> Py.value.
Variable get_paginated_response : Py.value -> HttpRequest -> Response.
Variable table : list EnterpriseCustomer.
Variable filter_queryset :
  HttpRequest -> list EnterpriseCustomer -> list EnterpriseCustomer.
Variable has_object_permission : HttpRequest -> EnterpriseCustomer -> bool.

(** Filter backends select rows of the queryset; they add none. *)
Hypothesis filter_queryset_selects :
  forall request rows row,
    In row (filter_queryset request rows) -> In row rows.

Let get_object :=
  EnterpriseCustomerViewSet.get_object table filter_queryset
    has_object_permission.
Let list_objects :=
  EnterpriseCustomerViewSet.list_objects table filter_queryset.
Let courses :=
  EnterpriseCustomerViewSet.courses service serializer_data
    update_enterprise_courses get_paginated_response table filter_queryset
    has_object_permission.

Lemma queryset_is_active c :
  In c (EnterpriseCustomerViewSet.queryset table) <->
  In c table /\ active c = true.
Proof.
  unfold EnterpriseCustomerViewSet.queryset, active_customers_all.
  apply filter_In.
Qed.

(** C9. The customer viewset works on [active_customers.all()]: every
    customer a list operation yields is active; every customer [get_object]
    resolves (for retrieve and for the courses action) is active; the
    courses action does nothing when no customer is resolved; and an
    inactive customer is neither listed nor resolved. *)
Theorem only_active_customers_reachable request pk :
  (forall c, In c (list_objects request) -> In c table /\ active c = true)
  /\ (forall c,
        result (get_object request pk) = Return c ->
        In c table /\ active c = true)
  /\ (forall e,
        result (get_object request pk) = Raise e ->
        courses request pk = ([], Raise e))
  /\ (forall c,
        active c = false ->
        ~ In c (list_objects request)
        /\ result (get_object request pk) <> Return c).
Proof.
  assert (Hlist : forall c,
             In c (list_objects request) -> In c table /\ active c = true).
  { intros c Hin. apply queryset_is_active.
    exact (filter_queryset_selects _ _ _ Hin). }
  assert (Hget : forall c,
             result (get_object request pk) = Return c ->
             In c table /\ active c = true).
  { intros c Hres. apply get_object_resolved in Hres.
    destruct Hres as (_ & Hin & _). apply Hlist. exact Hin. }
  split; [exact Hlist |]. split; [exact Hget |]. split.
  - intros e Hres.
    exact (courses_unresolved service serializer_data
             update_enterprise_courses get_paginated_response table
             filter_queryset has_object_permission _ _ _ Hres).
  - intros c Hinactive. split.
    + intros Hin. apply Hlist in Hin. destruct Hin as [_ Hact]. congruence.
    + intros Hres. apply Hget in Hres. destruct Hres as [_ Hact]. congruence.
Qed.

End ActiveCustomers.

Lemma only_active_customers_reachable_witness :
  EnterpriseCustomerViewSet.courses Sample.one_page_service Sample.plain_data
    Sample.tag_courses Sample.paginate Sample.customers (@Sample.all_rows _)
    (@Sample.allow _)
    (Sample.request_for "GET" "/enterprise-customer/d3/courses/" []) "d3"
  = ([], Raise Http404).
Proof.
  apply (only_active_customers_reachable Sample.one_page_service
           Sample.plain_data Sample.tag_courses Sample.paginate
           Sample.customers (@Sample.all_rows _) (@Sample.allow _)).
  - intros request rows row Hin. exact Hin.
  - reflexivity.
Defined.

(* ====================================================================== *)
(** * Further properties of the views                                      *)
(* ====================================================================== *)

(** ** What each view asks of the catalog service, and when it logs *)

Section ViewEffects.

Variable service : User -> api_call -> Py.value.
Variable serializer_data : SerializerClass -> Py.value -> Py.value.
Variable update_enterprise_courses :
  EnterpriseCustomer -> Py.value -> Py.value -> Py.value.
Variable get_paginated_response : Py.value -> HttpRequest -> Response.
Variable table : list EnterpriseCustomer.
Variable filter_queryset :
  HttpRequest -> list EnterpriseCustomer -> list EnterpriseCustomer.
Variable has_object_permission : HttpRequest -> EnterpriseCustomer -> bool.

Let run :=
  Router.run service serializer_data update_enterprise_courses
    get_paginated_response table filter_queryset has_object_permission.
Let get_object :=
  EnterpriseCustomerViewSet.get_object table filter_queryset
    has_object_permission.

Ltac run_customer_courses Hres :=
  unfold run, Router.run;
  first
    [ rewrite (courses_resolved service serializer_data
                 update_enterprise_courses get_paginated_response table
                 filter_queryset has_object_permission _ _ _ Hres)
    | rewrite (courses_unresolved service serializer_data
                 update_enterprise_courses get_paginated_response table
                 filter_queryset has_object_permission _ _ _ Hres) ].

Ltac run_catalog_view :=
  unfold run;
  first
    [ rewrite (catalog_list_run service serializer_data
                 update_enterprise_courses get_paginated_response table
                 filter_queryset has_object_permission)
    | rewrite (catalog_retrieve_run service serializer_data
                 update_enterprise_courses get_paginated_response table
                 filter_queryset has_object_permission)
    | rewrite (catalog_courses_run service serializer_data
                 update_enterprise_courses get_paginated_response table
                 filter_queryset has_object_permission) ];
  cbv zeta.

(** X1. The calls a view makes to the catalog service are fixed by the view
    and the request, not by what comes back. The three catalog views make
    exactly one call, as the request's user: list passes the query
    parameters, retrieve passes the key of the URL alone, courses passes the
    key of the URL and the query parameters. The customer courses action
    makes its one call only for a resolved customer with a truthy catalog,
    and none otherwise. *)
Theorem catalog_calls_by_view v request :
  filter is_api_call (trace (run v request)) =
  match v with
  | CustomerCourses pk =>
      match result (get_object request pk) with
      | Return ec =>
          if Py.truthy (catalog ec) then
            [CatalogApi (user request)
               (get_paginated_catalog_courses (catalog ec) (GET request))]
          else []
      | Raise _ => []
      end
  | CatalogList =>
      [CatalogApi (user request) (get_paginated_catalogs (GET request))]
  | CatalogRetrieve pk => [CatalogApi (user request) (get_catalog pk)]
  | CatalogCourses _ pk =>
      [CatalogApi (user request)
         (get_paginated_catalog_courses (Py.Str pk) (GET request))]
  end.
Proof.
  destruct v as [pk | | pk | ec pk].
  - destruct (result (get_object request pk)) as [ec | e] eqn:Hres;
      run_customer_courses Hres; [| reflexivity].
    destruct (Py.truthy (catalog ec)); simpl; [| reflexivity].
    destruct (Py.truthy (service _ _)); reflexivity.
  - run_catalog_view. destruct (Py.truthy (service _ _)); reflexivity.
  - run_catalog_view. destruct (Py.truthy (service _ _)); reflexivity.
  - run_catalog_view. destruct (Py.truthy (service _ _)); reflexivity.
Qed.

(** X2. Past [get_object], a view writes to the error log exactly when it
    raises NotFound, and then once: the catalog views on every request, the
    customer courses action on every request whose customer [get_object]
    resolved. A view that returns a response has logged nothing. (What the
    permission classes may log when [get_object] denies a request is theirs,
    and is not spoken of.) *)
Theorem error_log_iff_not_found v request :
  match v with
  | CustomerCourses pk => exists ec, result (get_object request pk) = Return ec
  | _ => True
  end ->
  (existsb is_log (trace (run v request)) = true <->
   exists detail, result (run v request) = Raise (NotFound detail))
  /\ length (filter is_log (trace (run v request))) <= 1
  /\ (forall response,
        result (run v request) = Return response ->
        filter is_log (trace (run v request)) = []).
Proof.
  destruct v as [pk | | pk | ec pk].
  - intros [ec Hres]. run_customer_courses Hres.
    destruct (Py.truthy (catalog ec)); simpl.
    + destruct (Py.truthy (service _ _)); simpl.
      * split; [| split; [lia | reflexivity]].
        split; [discriminate |]. intros [detail H]. discriminate.
      * split; [| split; [lia | discriminate]]. split; eauto.
    + split; [| split; [lia | discriminate]]. split; eauto.
  - intros _. run_catalog_view.
    destruct (Py.truthy (service _ _)); simpl.
    + split; [| split; [lia | reflexivity]].
      split; [discriminate |]. intros [detail H]. discriminate.
    + split; [| split; [lia | discriminate]]. split; eauto.
  - intros _. run_catalog_view.
    destruct (Py.truthy (service _ _)); simpl.
    + split; [| split; [lia | reflexivity]].
      split; [discriminate |]. intros [detail H]. discriminate.
    + split; [| split; [lia | discriminate]]. split; eauto.
  - intros _. run_catalog_view.
    destruct (Py.truthy (service _ _)); simpl.
    + split; [| split; [lia | reflexivity]].
      split; [discriminate |]. intros [detail H]. discriminate.
    + split; [| split; [lia | discriminate]]. split; eauto.
Qed.

(** X3. A catalog view returns a response exactly when the payload is
    truthy, and otherwise raises NotFound with one fixed detail that says
    nothing of the request. List returns the serialized page through the
    pagination wrapper; retrieve returns the serialized catalog in a bare
    response; courses returns, through the pagination wrapper, the
    serialized page with the enterprise context of the customer it was
    given and the catalog key of the URL. *)
Theorem catalog_view_result request pk ec :
  result (run CatalogList request)
  = (let payload :=
       service (user request) (get_paginated_catalogs (GET request)) in
     if Py.truthy payload then
       Return
         (get_paginated_response
            (serializer_data CourseCatalogAPIResponseReadOnlySerializer
               payload) request)
     else Raise (NotFound EnterpriseCatalogViewSet.resource_missing))
  /\ result (run (CatalogRetrieve pk) request)
     = (let payload := service (user request) (get_catalog pk) in
        if Py.truthy payload then
          Return
            (mkResponse
               (serializer_data EnterpriseCourseCatalogReadOnlySerializer
                  payload))
        else Raise (NotFound EnterpriseCatalogViewSet.resource_missing))
  /\ result (run (CatalogCourses ec pk) request)
     = (let payload :=
          service (user request)
            (get_paginated_catalog_courses (Py.Str pk) (GET request)) in
        if Py.truthy payload then
          Return
            (get_paginated_response
               (update_enterprise_courses ec (Py.Str pk)
                  (serializer_data EnterpriseCatalogCoursesReadOnlySerializer
                     payload)) request)
        else Raise (NotFound EnterpriseCatalogViewSet.resource_missing)).
Proof.
  repeat split; run_catalog_view;
    destruct (Py.truthy (service _ _)); reflexivity.
Qed.

(** X4. The catalog courses action never looks at the catalog of the
    customer it is given: for any two customers it makes the same call,
    writes the same log and fails on the same requests. Only the context
    attached to a truthy payload depends on the customer. *)
Theorem catalog_courses_ignores_customer_catalog request ec ec' pk :
  trace (run (CatalogCourses ec pk) request)
  = trace (run (CatalogCourses ec' pk) request)
  /\ (forall e,
        result (run (CatalogCourses ec pk) request) = Raise e <->
        result (run (CatalogCourses ec' pk) request) = Raise e)
  /\ In (CatalogApi (user request)
           (get_paginated_catalog_courses (Py.Str pk) (GET request)))
        (trace (run (CatalogCourses ec pk) request)).
Proof.
  unfold run.
  rewrite !(catalog_courses_run service serializer_data
              update_enterprise_courses get_paginated_response table
              filter_queryset has_object_permission).
  cbv zeta. destruct (Py.truthy (service _ _)); simpl.
  - split; [reflexivity |]. split; [| auto].
    intros e. split; discriminate.
  - split; [reflexivity |]. split; [| auto].
    intros e. split; auto.
Qed.

(** X5. What the client is told and what is logged: when the customer
    courses action raises NotFound, the detail sent to the client is the
    very message that was logged; when a catalog view raises NotFound, the
    detail is never the logged message. *)
Theorem not_found_detail_and_log v request detail :
  result (run v request) = Raise (NotFound detail) ->
  match v with
  | CustomerCourses _ => In (LogError detail) (trace (run v request))
  | _ => ~ In (LogError detail) (trace (run v request))
  end.
Proof.
  destruct v as [pk | | pk | ec pk].
  - destruct (result (get_object request pk)) as [ec | e] eqn:Hres.
    + run_customer_courses Hres.
      destruct (Py.truthy (catalog ec)); simpl.
      * destruct (Py.truthy (service _ _)); simpl; [discriminate |].
        intros Heq. injection Heq as <-. auto.
      * intros Heq. injection Heq as <-. auto.
    + assert (Hkind : e = Http404 \/ e = PermissionDenied).
      { pose proof Hres as Hcopy. apply get_object_raises in Hcopy.
        exact (proj2 Hcopy). }
      run_customer_courses Hres. simpl. intros Heq. injection Heq as ->.
      destruct Hkind; discriminate.
  - run_catalog_view.
    destruct (Py.truthy (service _ _)); simpl; [discriminate |].
    intros Heq. injection Heq as <-.
    intros [Habs | [Habs | []]]; discriminate.
  - run_catalog_view.
    destruct (Py.truthy (service _ _)); simpl; [discriminate |].
    intros Heq. injection Heq as <-.
    intros [Habs | [Habs | []]]; discriminate.
  - run_catalog_view.
    destruct (Py.truthy (service _ _)); simpl; [discriminate |].
    intros Heq. injection Heq as <-.
    intros [Habs | [Habs | []]]; discriminate.
Qed.

(** X6. The detail of a NotFound raised by the customer courses action
    tells its two causes apart: it begins with [No catalog] exactly when
    the catalog service was never called. *)
Theorem courses_failure_cause_in_detail request pk detail :
  result (run (CustomerCourses pk) request) = Raise (NotFound detail) ->
  (String.prefix "No catalog" detail = true <->
   existsb is_api_call (trace (run (CustomerCourses pk) request)) = false).
Proof.
  destruct (result (get_object request pk)) as [ec | e] eqn:Hres.
  - run_customer_courses Hres.
    destruct (Py.truthy (catalog ec)); simpl.
    + destruct (Py.truthy (service _ _)); simpl; [discriminate |].
      intros Heq. injection Heq as <-. split; discriminate.
    + intros Heq. injection Heq as <-. split; reflexivity.
  - assert (Hkind : e = Http404 \/ e = PermissionDenied).
    { pose proof Hres as Hcopy. apply get_object_raises in Hcopy.
      exact (proj2 Hcopy). }
    run_customer_courses Hres. simpl. intros Heq. injection Heq as ->.
    destruct Hkind; discriminate.
Qed.

(** X7. The customer courses action calls the catalog service only after
    every check has passed: the call is made as the request's user, for a
    customer of the filtered queryset whose key is the one requested, that
    passed the object-level permission check and has a truthy catalog, and
    it asks for that catalog with the request's query parameters. *)
Theorem catalog_call_only_after_checks request pk u call :
  In (CatalogApi u call) (trace (run (CustomerCourses pk) request)) ->
  exists ec,
    result (get_object request pk) = Return ec
    /\ In ec (filter_queryset request (EnterpriseCustomerViewSet.queryset table))
    /\ uuid ec = pk
    /\ has_object_permission request ec = true
    /\ Py.truthy (catalog ec) = true
    /\ u = user request
    /\ call = get_paginated_catalog_courses (catalog ec) (GET request).
Proof.
  destruct (result (get_object request pk)) as [ec | e] eqn:Hres.
  - assert (Hfacts :
      In ec (filter_queryset request (EnterpriseCustomerViewSet.queryset table))
      /\ String.eqb (uuid ec) pk = true
      /\ has_object_permission request ec = true).
    { pose proof Hres as Hcopy. apply get_object_resolved in Hcopy.
      exact (proj2 Hcopy). }
    destruct Hfacts as (Hin & Hkey & Hperm). apply String.eqb_eq in Hkey.
    run_customer_courses Hres.
    destruct (Py.truthy (catalog ec)) eqn:Hcat; simpl.
    + intros Hcall.
      assert (Hev : CatalogApi (user request)
                      (EnterpriseCustomerViewSet.courses_call request ec)
                    = CatalogApi u call).
      { destruct (Py.truthy (service _ _)); simpl in Hcall.
        - destruct Hcall as [Hcall | []]. exact Hcall.
        - destruct Hcall as [Hcall | [Hcall | []]];
            [exact Hcall | discriminate]. }
      injection Hev as <- <-. exists ec. repeat split; auto.
    + intros [Hcall | []]. discriminate.
  - run_customer_courses Hres. simpl. intros [].
Qed.

(** X12. A view returns a response exactly when it called the catalog
    service and the payload that came back is truthy. So a page that lists
    no courses but is itself a non-empty object is a success, and no
    response is ever built without a call. *)
Theorem response_iff_truthy_payload v request :
  (exists response, result (run v request) = Return response) <->
  (exists call,
     In (CatalogApi (user request) call) (trace (run v request))
     /\ Py.truthy (service (user request) call) = true).
Proof.
  destruct v as [pk | | pk | ec pk].
  - destruct (result (get_object request pk)) as [ec | e] eqn:Hres;
      run_customer_courses Hres.
    + destruct (Py.truthy (catalog ec)); simpl.
      * destruct (Py.truthy (service _ _)) eqn:Hpay; simpl.
        -- split; [| eauto]. intros _. eexists. split; [left; reflexivity |].
           exact Hpay.
        -- split; [intros [r Habs]; discriminate |].
           intros (call & [Hin | [Hin | []]] & Htruthy);
             [| discriminate].
           injection Hin as <-.
           unfold EnterpriseCustomerViewSet.courses_call in *. congruence.
      * split; [intros [r Habs]; discriminate |].
        intros (call & [Hin | []] & _). discriminate.
    + simpl. split; [intros [r Habs]; discriminate |].
      intros (call & [] & _).
  - run_catalog_view. destruct (Py.truthy (service _ _)) eqn:Hpay; simpl.
    + split; [| eauto]. intros _. eexists. split; [left; reflexivity |].
      exact Hpay.
    + split; [intros [r Habs]; discriminate |].
      intros (call & [Hin | [Hin | []]] & Htruthy); [| discriminate].
      injection Hin as <-. congruence.
  - run_catalog_view. destruct (Py.truthy (service _ _)) eqn:Hpay; simpl.
    + split; [| eauto]. intros _. eexists. split; [left; reflexivity |].
      exact Hpay.
    + split; [intros [r Habs]; discriminate |].
      intros (call & [Hin | [Hin | []]] & Htruthy); [| discriminate].
      injection Hin as <-. congruence.
  - run_catalog_view. destruct (Py.truthy (service _ _)) eqn:Hpay; simpl.
    + split; [| eauto]. intros _. eexists. split; [left; reflexivity |].
      exact Hpay.
    + split; [intros [r Habs]; discriminate |].
      intros (call & [Hin | [Hin | []]] & Htruthy); [| discriminate].
      injection Hin as <-. congruence.
Qed.

End ViewEffects.

Lemma error_log_iff_not_found_witness :
  filter is_log
    (trace
       (EnterpriseCustomerViewSet.courses Sample.one_page_service
          Sample.plain_data Sample.tag_courses Sample.paginate
          Sample.customers (@Sample.all_rows _) (@Sample.allow _)
          (Sample.request_for "GET" "/enterprise-customer/g2/courses/" [])
          "g2"))
  = [].
Proof.
  destruct (error_log_iff_not_found Sample.one_page_service
              Sample.plain_data Sample.tag_courses Sample.paginate
              Sample.customers (@Sample.all_rows _) (@Sample.allow _)
              (CustomerCourses "g2")
              (Sample.request_for "GET" "/enterprise-customer/g2/courses/" [])
              (ex_intro _ Sample.globex eq_refl))
    as (_ & _ & Hquiet).
  apply (Hquiet _ eq_refl).
Defined.

Lemma not_found_detail_and_log_witness :
  ~ In (LogError EnterpriseCatalogViewSet.resource_missing)
      (trace
         (EnterpriseCatalogViewSet.retrieve Sample.silent_service
            Sample.plain_data (Sample.request_for "GET" "/catalogs/3/" [])
            "3")).
Proof.
  apply (not_found_detail_and_log Sample.silent_service Sample.plain_data
           Sample.tag_courses Sample.paginate Sample.customers
           (@Sample.all_rows _) (@Sample.allow _) (CatalogRetrieve "3")
           (Sample.request_for "GET" "/catalogs/3/" [])
           EnterpriseCatalogViewSet.resource_missing).
  reflexivity.
Defined.

Lemma courses_failure_cause_in_detail_witness :
  existsb is_api_call
    (trace
       (EnterpriseCustomerViewSet.courses Sample.one_page_service
          Sample.plain_data Sample.tag_courses Sample.paginate
          Sample.customers (@Sample.all_rows _) (@Sample.allow _)
          (Sample.request_for "GET" "/enterprise-customer/a1/courses/" [])
          "a1"))
  = false.
Proof.
  apply (courses_failure_cause_in_detail Sample.one_page_service
           Sample.plain_data Sample.tag_courses Sample.paginate
           Sample.customers (@Sample.all_rows _) (@Sample.allow _)
           (Sample.request_for "GET" "/enterprise-customer/a1/courses/" [])
           "a1"
           (EnterpriseCustomerViewSet.no_catalog_message "Acme"
              "/enterprise-customer/a1/courses/")).
  - reflexivity.
  - reflexivity.
Defined.

Lemma catalog_call_only_after_checks_witness :
  exists ec,
    uuid ec = "g2"
    /\ Py.truthy (catalog ec) = true
    /\ get_paginated_catalog_courses (Py.Int 7) [("page", "2")]
       = get_paginated_catalog_courses (catalog ec) [("page", "2")].
Proof.
  destruct (catalog_call_only_after_checks Sample.silent_service
              Sample.plain_data Sample.tag_courses Sample.paginate
              Sample.customers (@Sample.all_rows _) (@Sample.allow _)
              (Sample.request_for "GET" "/enterprise-customer/g2/courses/"
                 [("page", "2")])
              "g2" Sample.staff
              (get_paginated_catalog_courses (Py.Int 7) [("page", "2")]))
    as (ec & _ & _ & Hkey & _ & Hcat & _ & Hcall).
  - simpl. left. reflexivity.
  - exists ec. auto.
Defined.

(** ** The entitlements action *)

Section EntitlementsEffects.

Variable table : list EnterpriseCustomerUser.
Variable filter_queryset :
  HttpRequest -> list EnterpriseCustomerUser -> list EnterpriseCustomerUser.
Variable has_object_permission : HttpRequest -> EnterpriseCustomerUser -> bool.
Variable consent_allows :
  string -> EnterpriseCustomerUser -> Py.value -> bool.

Let get_object :=
  EnterpriseCustomerUserViewSet.get_object table filter_queryset
    has_object_permission.
Let entitlements :=
  EnterpriseCustomerUserViewSet.entitlements table filter_queryset
    has_object_permission consent_allows.

(** X9. The entitlements action neither logs nor calls the catalog
    service. It returns a response exactly when [get_object] resolves the
    learner; a 404 or a denial from [get_object] is raised unchanged, and
    the action raises nothing else. *)
Theorem entitlements_effects request pk :
  trace (entitlements request pk) = []
  /\ ((exists response, result (entitlements request pk) = Return response)
      <-> exists learner, result (get_object request pk) = Return learner)
  /\ (forall e,
        result (entitlements request pk) = Raise e <->
        result (get_object request pk) = Raise e)
  /\ (forall e,
        result (entitlements request pk) = Raise e ->
        e = Http404 \/ e = PermissionDenied).
Proof.
  destruct (result (get_object request pk)) as [learner | e] eqn:Hres.
  - pose proof Hres as Hget. apply get_object_resolved in Hget.
    destruct Hget as (Hget & _).
    unfold entitlements, EnterpriseCustomerUserViewSet.entitlements.
    unfold get_object, EnterpriseCustomerUserViewSet.get_object in Hget.
    unfold EnterpriseCustomerUserViewSet.get_object.
    rewrite Hget, bind_return. simpl.
    split; [reflexivity |]. split; [split; eauto |].
    split; [intros e; split; discriminate | discriminate].
  - pose proof Hres as Hget. apply get_object_raises in Hget.
    destruct Hget as (Hget & Hkind).
    unfold entitlements, EnterpriseCustomerUserViewSet.entitlements.
    unfold get_object, EnterpriseCustomerUserViewSet.get_object in Hget.
    unfold EnterpriseCustomerUserViewSet.get_object.
    rewrite Hget, bind_raise. simpl.
    split; [reflexivity |]. split; [| split].
    + split; intros [x Heq]; discriminate.
    + intros e'. split; intros Heq; injection Heq as <-; reflexivity.
    + intros e' Heq. injection Heq as <-. exact Hkind.
Qed.

End EntitlementsEffects.

Lemma entitlements_effects_witness :
  result
    (EnterpriseCustomerUserViewSet.entitlements [Sample.learner]
       (@Sample.all_rows _) (@Sample.allow _) Sample.only_first_entitlement
       (Sample.request_for "GET" "/enterprise-learner/6/entitlements/" [])
       6%Z)
  = Raise Http404.
Proof.
  destruct (entitlements_effects [Sample.learner] (@Sample.all_rows _)
              (@Sample.allow _) Sample.only_first_entitlement
              (Sample.request_for "GET" "/enterprise-learner/6/entitlements/"
                 [])
              6%Z)
    as (_ & _ & Hraise & _).
  apply Hraise. reflexivity.
Defined.

(** ** More on the class attributes *)

Section ClassAttributes.

Variable ReadOnlyModelViewSet : pyclass.
Variable ModelViewSet : pyclass.
Variable ViewSet : pyclass.
Variable is_service_user : User -> bool.
Variable is_owner : HttpRequest -> bool.
Variable is_staff_or_linked : HttpRequest -> bool.
Variable other_permission : string -> HttpRequest -> bool.

Let model_viewsets := Classes.model_viewsets ReadOnlyModelViewSet ModelViewSet.
Let read_only_viewsets := Classes.read_only_viewsets ReadOnlyModelViewSet.
Let check_permissions :=
  Permissions.check_permissions is_service_user is_owner is_staff_or_linked
    other_permission.
Let permits :=
  Permissions.permits is_service_user is_owner is_staff_or_linked
    other_permission.

Ltac each_viewset H :=
  repeat (destruct H as [<- | H]); [.. | destruct H].

(** X10. Every model viewset resolves filter backends that include both
    the ordering filter and the field filter, so its [FIELDS] tuple is in
    force for ordering and for filtering, whatever the framework's default
    backends are. The customer-user filter backend is installed on the
    customer-user viewset and on no other. *)
Theorem filter_backends_installed V :
  In V model_viewsets ->
  exists backends,
    class_getattr V "filter_backends" = Some (FilterBackends backends)
    /\ In OrderingFilter backends
    /\ In DjangoFilterBackend backends
    /\ (In EnterpriseCustomerUserFilterBackend backends <->
        class_name V = "EnterpriseCustomerUserViewSet").
Proof.
  intros Hin. unfold model_viewsets, Classes.model_viewsets in Hin.
  simpl in Hin.
  each_viewset Hin; eexists; (split; [reflexivity |]); simpl;
    (split; [auto |]); (split; [auto |]);
    (split;
     [ intros Hb;
       repeat (destruct Hb as [Hb | Hb]; try discriminate Hb);
       solve [reflexivity | contradiction]
     | intros Hn; solve [discriminate Hn | auto] ]).
Qed.

(** X11. The courses action of the customer viewset is routed with its own
    permission classes, which extend those of its class and those of the
    read/write viewsets: a request it admits is admitted by the customer
    viewset and passes the read/write gate as well as the staff-or-linked
    check. Its authentication and throttle classes are those of the
    class. *)
Theorem courses_route_is_stricter request classes :
  route_getattr Classes.courses_route_kwargs
    (Classes.EnterpriseCustomerViewSet ReadOnlyModelViewSet)
    "permission_classes" = Some (PermissionClasses classes) ->
  check_permissions classes request = true ->
  permits (Classes.EnterpriseCustomerViewSet ReadOnlyModelViewSet) request
  = Some true
  /\ permits (Classes.EnterpriseReadWriteModelViewSet ModelViewSet) request
     = Some true
  /\ is_staff_or_linked request = true
  /\ (forall x,
        x = "authentication_classes" \/ x = "throttle_classes" ->
        route_getattr Classes.courses_route_kwargs
          (Classes.EnterpriseCustomerViewSet ReadOnlyModelViewSet) x
        = class_getattr
            (Classes.EnterpriseCustomerViewSet ReadOnlyModelViewSet) x).
Proof.
  intros Hattr Hcheck. injection Hattr as <-.
  unfold check_permissions, Permissions.check_permissions in Hcheck.
  cbn [forallb] in Hcheck.
  apply andb_true_iff in Hcheck. destruct Hcheck as [Hauth Hcheck].
  apply andb_true_iff in Hcheck. destruct Hcheck as [Hgate Hcheck].
  apply andb_true_iff in Hcheck. destruct Hcheck as [Hlinked _].
  unfold permits, Permissions.permits.
  split; [| split; [| split]].
  - change (class_getattr
              (Classes.EnterpriseCustomerViewSet ReadOnlyModelViewSet)
              "permission_classes")
      with (Some (PermissionClasses [IsAuthenticated])).
    unfold Permissions.check_permissions. cbn [forallb].
    rewrite Hauth. reflexivity.
  - change (class_getattr
              (Classes.EnterpriseReadWriteModelViewSet ModelViewSet)
              "permission_classes")
      with (Some (PermissionClasses
                    [IsAuthenticated; IsServiceUserOrReadOnly])).
    unfold Permissions.check_permissions. cbn [forallb].
    rewrite Hauth, Hgate. reflexivity.
  - exact Hlinked.
  - intros x [-> | ->]; reflexivity.
Qed.



End ClassAttributes.

Lemma filter_backends_installed_witness :
  exists backends,
    class_getattr
      (Classes.EnterpriseCustomerUserViewSet (Sample.bare "ModelViewSet"))
      "filter_backends" = Some (FilterBackends backends)
    /\ In EnterpriseCustomerUserFilterBackend backends.
Proof.
  destruct (filter_backends_installed (Sample.bare "ReadOnlyModelViewSet")
              (Sample.bare "ModelViewSet")
              (Classes.EnterpriseCustomerUserViewSet
                 (Sample.bare "ModelViewSet")))
    as (backends & Hattr & _ & _ & Hextra).
  - simpl. auto 10.
  - exists backends. split; [exact Hattr |]. apply Hextra. reflexivity.
Defined.

Lemma courses_route_is_stricter_witness :
  Permissions.permits (fun _ => false) (fun _ => false) (fun _ => true)
    (fun _ _ => false)
    (Classes.EnterpriseReadWriteModelViewSet (Sample.bare "ModelViewSet"))
    (Sample.request_for "GET" "/enterprise-customer/g2/courses/" [])
  = Some true.
Proof.
  apply (courses_route_is_stricter (Sample.bare "ReadOnlyModelViewSet")
           (Sample.bare "ModelViewSet") (fun _ => false) (fun _ => false)
           (fun _ => true) (fun _ _ => false)
           (Sample.request_for "GET" "/enterprise-customer/g2/courses/" [])
           [IsAuthenticated; IsServiceUserOrReadOnly;
            IsStaffUserOrLinkedToEnterprise]).
  - reflexivity.
  - reflexivity.
Defined.


